(** * Chunked layer-manifest reader: pkg/chunked/compression_linux.go

    A shallow embedding of [readEstargzChunkedManifest],
    [readZstdChunkedManifest], [decodeAndValidateBlob] and
    [isZstdChunkedFrameMagic], with the ranged blob source, the digest
    library, the decompressors and the scanners taken as an explicit
    environment, and an event log recording every interaction with the
    blob source. *)

From Stdlib Require Import ZArith List Lia Bool String Ascii.
From Stdlib.Strings Require Import Byte.
From stdpp Require Import base option gmap strings list.
Import ListNotations.
Open Scope Z_scope.

(** ** Go values *)

(** [[]byte]. A nil slice and an empty slice are told apart only where the
    code tests for nil; there the model uses [option (list byte)]. *)
Abbreviation bytes := (list byte).

(** Go's [error] values that the code builds itself, the io errors of
    [io.ReadFull], and the errors handed over by collaborators. *)
Inductive error : Type :=
  | ErrBlobTooSmall                 (* errors.New("blob too small") *)
  | ErrManifestTooBig               (* errors.New("manifest too big") *)
  | ErrManifestNotFound             (* errors.New("manifest not found") *)
  | ErrInvalidManifestChecksum      (* errors.New("invalid manifest checksum") *)
  | ErrChecksumAnnotationNotFound   (* "manifest checksum annotation %q not found" *)
  | ErrInvalidMagic                 (* errors.New("invalid magic number") *)
  | ErrInvalidManifestType          (* errors.New("invalid manifest type") *)
  | ErrStreamClosed                 (* errors.New("stream closed") *)
  | ErrInvalidBlobChecksum (expected got : string)
  | ErrParseTocOffset (cause : error)  (* fmt.Errorf("parse ToC offset: %w", err) *)
  | ErrEOF                          (* io.EOF *)
  | ErrUnexpectedEOF                (* io.ErrUnexpectedEOF *)
  | ErrExternal (msg : string).     (* any error of a collaborator *)

(** A fallible call [(v, err)] of Go where exactly one side is set. *)
Inductive res (A : Type) : Type :=
  | Ok (a : A)
  | Err (e : error).
Arguments Ok {A} a.
Arguments Err {A} e.

(** Integer conversions of Go, written out. *)
Definition uint64 (z : Z) : Z := z mod 2 ^ 64.
Definition int64 (z : Z) : Z := (z + 2 ^ 63) mod 2 ^ 64 - 2 ^ 63.

(** [s[lo:hi]] on a slice that is long enough. *)
Definition slice (lo hi : nat) (b : bytes) : bytes := take (hi - lo) (drop lo b).

Definition byte_eqb (a b : byte) : bool := Byte.eqb a b.

Fixpoint bytes_Equal (a b : bytes) : bool :=
  match a, b with
  | [], [] => true
  | x :: a', y :: b' => byte_eqb x y && bytes_Equal a' b'
  | _, _ => false
  end.

Definition byte_val (b : byte) : Z := Z.of_N (Byte.to_N b).

(** [binary.LittleEndian.Uint64]:
    [uint64(b[0]) | uint64(b[1])<<8 | ... | uint64(b[7])<<56]. *)
Definition LittleEndian_Uint64 (b : bytes) : Z :=
  match b with
  | b0 :: b1 :: b2 :: b3 :: b4 :: b5 :: b6 :: b7 :: _ =>
      Z.lor (byte_val b0)
     (Z.lor (Z.shiftl (byte_val b1) 8)
     (Z.lor (Z.shiftl (byte_val b2) 16)
     (Z.lor (Z.shiftl (byte_val b3) 24)
     (Z.lor (Z.shiftl (byte_val b4) 32)
     (Z.lor (Z.shiftl (byte_val b5) 40)
     (Z.lor (Z.shiftl (byte_val b6) 48)
            (Z.shiftl (byte_val b7) 56)))))))
  | _ => 0
  end.

(** The value of a little-endian digit string in base 256. *)
Fixpoint le_value (b : bytes) : Z :=
  match b with
  | [] => 0
  | x :: b' => byte_val x + 256 * le_value b'
  end.

(** ** Readers and [io.ReadFull] *)

(** What an [io.Reader] will deliver: [r_data], then end of file
    ([r_fail = None]) or the error [r_fail]. *)
Record Reader : Type := mkReader {
  r_data : bytes;
  r_fail : option error
}.

(** What [io.ReadFull] reports for a reader that ends before the buffer is
    full: the reader's own error, except that the end of the file, told by
    [io.EOF] or by the data just ending, is [io.EOF] when no byte was read and
    [io.ErrUnexpectedEOF] after at least one. *)
Definition short_read_error (r : Reader) : error :=
  let at_end := match r_data r with [] => ErrEOF | _ => ErrUnexpectedEOF end in
  match r_fail r with
  | Some ErrEOF => at_end
  | Some e => e
  | None => at_end
  end.

(** [io.ReadFull(r, buf)]: the buffer after the call and the error. On a short
    read the bytes that did arrive stay in the buffer. *)
Definition io_ReadFull (r : Reader) (buf : bytes) : bytes * option error :=
  let n := length buf in
  if (n <=? length (r_data r))%nat then (take n (r_data r), None)
  else (r_data r ++ drop (length (r_data r)) buf, Some (short_read_error r)).

(** [make([]byte, n)], for the lengths the reader asks for: a uint64, or an
    archive entry size, which archive/tar never reports negative. Go panics
    when asked for more than the runtime can allocate; the model describes the
    allocations that succeed, and a read is stated to succeed only for a
    length within the ceiling that the reader applies to the manifest
    ([within_ceiling], 50 MiB). *)
Definition make_bytes (n : Z) : bytes := repeat x00 (Z.to_nat n).

(** ** The ranged blob source *)

Record ImageSourceChunk : Type := mkChunk {
  Offset : Z;   (* uint64 *)
  Length : Z    (* uint64 *)
}.

(** A stream is named by the request that produced it and its position in
    that request's deliveries. *)
Definition StreamId : Type := (nat * nat)%type.

Record Stream : Type := mkStream {
  stream_id : StreamId;
  stream_reader : Reader
}.

(** [streamOrErr]: an open stream or an error. *)
Inductive streamOrErr : Type :=
  | SoeStream (s : Stream)
  | SoeErr (e : error).

(** The answer of [ImageSourceSeekable.GetBlobAt]: a synchronous error, or
    what is then delivered over its channels, in delivery order, before they
    are closed. *)
Inductive SourceReply : Type :=
  | SetupError (e : error)
  | Delivers (outs : list (res Reader)).

(** A blob source answers its n-th request (counted from 0). *)
Definition Source : Type := nat -> list ImageSourceChunk -> SourceReply.

(** What the reader does to the outside world, oldest event first. *)
Inductive Event : Type :=
  | EvGetBlobAt (chunks : list ImageSourceChunk)  (* a call of GetBlobAt *)
  | EvRecv (id : StreamId)        (* a stream taken from a channel *)
  | EvClose (id : StreamId)       (* stream.Close() *)
  | EvDecompress (blob : bytes).  (* a decompressor is started on these bytes *)

Definition Log : Type := list Event.

Definition requests (log : Log) : list (list ImageSourceChunk) :=
  omap (fun e => match e with EvGetBlobAt c => Some c | _ => None end) log.

Definition received (log : Log) : list StreamId :=
  omap (fun e => match e with EvRecv i => Some i | _ => None end) log.

Definition closed (log : Log) : list StreamId :=
  omap (fun e => match e with EvClose i => Some i | _ => None end) log.

Definition decompressions (log : Log) : list bytes :=
  omap (fun e => match e with EvDecompress b => Some b | _ => None end) log.

(** Events that contain no request, and in which every stream received is
    closed. *)
Definition drains (added : Log) : Prop :=
  requests added = [] /\ received added = closed added.

(** Events that moreover start no decompressor. *)
Definition drains_quietly (added : Log) : Prop :=
  drains added /\ decompressions added = [].

Fixpoint tag_from (n i : nat) (outs : list (res Reader)) : list streamOrErr :=
  match outs with
  | [] => []
  | Ok r :: outs' => SoeStream (mkStream (n, i) r) :: tag_from n (S i) outs'
  | Err e :: outs' => SoeErr e :: tag_from n (S i) outs'
  end.

(** [blobStream.GetBlobAt(chunks)] as the reader sees it: the request is
    logged and the deliveries are named. *)
Definition GetBlobAt (src : Source) (chunks : list ImageSourceChunk) (log : Log)
  : res (list streamOrErr) * Log :=
  let n := length (requests log) in
  let log' := log ++ [EvGetBlobAt chunks] in
  match src n chunks with
  | SetupError e => (Err e, log')
  | Delivers outs => (Ok (tag_from n 0 outs), log')
  end.

(** ** Constants and collaborators *)

(** [maxTocSize = (1 << 20) * 50] *)
Definition maxTocSize : Z := Z.shiftl 1 20 * 50.

(** Modelled from the spec: [internal.FooterSizeSupported], declared in the
    package [internal]; the native footer is "56 bytes at blobSize-56". *)
Definition FooterSizeSupported : Z := 56.

(** Modelled from the spec: [internal.ManifestTypeCRFS], declared in the
    package [internal]; the single recognized manifest-type tag, [type:1] in
    the spec's concrete scenario. *)
Definition ManifestTypeCRFS : Z := 1.

(** What the file takes from elsewhere: the remaining constants of the package
    [internal] (whose values the reader never inspects), go-digest, fmt,
    strconv, zstd, pgzip and archive/tar, and the one choice Go's scheduler
    makes for the reader. *)
Record Env : Type := mkEnv {
  (* package internal *)
  ZstdChunkedFrameMagic : bytes;
  ManifestChecksumKey : string;
  ManifestInfoKey : string;
  TarSplitInfoKey : string;
  TarSplitChecksumKey : string;
  (* estargz.TOCJSONDigestAnnotation *)
  TOCJSONDigestAnnotation : string;
  (* digest.Parse(s) returns Digest(s) and the error of its validation *)
  digest_Validate : string -> option error;
  (* d.Algorithm().Digester(), Hash().Write(b), Digest(): the digest of b
     under the algorithm named by d *)
  digest_FromBytes : string -> bytes -> string;
  (* digest.Canonical.Digester(), Hash().Write(b), Digest() *)
  digest_Canonical : bytes -> string;
  (* fmt.Sscanf(s, "%d:%d:%d:%d", ...) and fmt.Sscanf(s, "%d:%d:%d", ...)
     into uint64 variables *)
  Sscanf4 : string -> res (Z * Z * Z * Z);
  Sscanf3 : string -> res (Z * Z * Z);
  (* strconv.ParseInt(string(b), 16, 64) *)
  strconv_ParseInt16 : bytes -> res Z;
  (* zstd.NewReader(nil) *)
  zstd_NewReader : option error;
  (* decoder.DecodeAll(input, dst) for a dst of length 0 and the given
     capacity *)
  zstd_DecodeAll : bytes -> Z -> res bytes;
  (* pgzip.NewReader(r): the decompressed stream *)
  pgzip_NewReader : Reader -> res Reader;
  (* archivetar.NewReader(r).Next(): header.Size and the entry's reader *)
  archivetar_Next : Reader -> res (Z * Reader);
  (* a select over two closed channels: true when the errs case is taken *)
  select_closed_takes_errs : bool
}.

(** [annotations[key]] of a Go [map[string]string]: the empty string for a
    missing key. *)
Definition annotation (annotations : gmap string string) (key : string) : string :=
  default EmptyString (annotations !! key).

Section Reader.

Variable E : Env.

(** [isZstdChunkedFrameMagic] *)
Definition isZstdChunkedFrameMagic (data : bytes) : bool :=
  if (length data <? 8)%nat then false
  else bytes_Equal (ZstdChunkedFrameMagic E) (take 8 data).

(** [decodeAndValidateBlob]. On an error the slice returned next to it is
    dropped by every caller and is not modelled; [Hash.Write] never returns
    an error. The buffer of line 318 takes the declared length as its
    capacity, and Go panics there when that capacity cannot be allocated: the
    model describes the calls in which it can, and a call is stated to
    succeed only for a declared length within the ceiling
    ([within_ceiling], 50 MiB). *)
Definition decodeAndValidateBlob (blob : bytes) (lengthUncompressed : Z)
    (expectedUncompressedChecksum : string) (log : Log) : res bytes * Log :=
  let d := expectedUncompressedChecksum in
  match digest_Validate E d with
  | Some e => (Err e, log)
  | None =>
      let got := digest_FromBytes E d blob in
      if negb (String.eqb got d) then (Err (ErrInvalidBlobChecksum d got), log)
      else
        match zstd_NewReader E with
        | Some e => (Err e, log)
        | None =>
            (* b := make([]byte, 0, lengthUncompressed) *)
            (zstd_DecodeAll E blob lengthUncompressed, log ++ [EvDecompress blob])
        end
  end.

(** Modelled from the spec: [getBlobAt], a helper of the package that is not
    in this file; it turns the source's answer into one channel "yielding
    one FetchOutcome per range, where each outcome is either an open readable
    stream positioned at the range start or an error", or reports the setup
    error. The channel is the list of outcomes still to be received. *)
Definition getBlobAt (src : Source) (chunks : list ImageSourceChunk) (log : Log)
  : res (list streamOrErr) * Log :=
  GetBlobAt src chunks log.

(** Modelled from the spec: [ensureAllBlobsDone], a helper of the package that
    is not in this file; the consumer must "always drain every outcome, even
    after encountering the first error, so that streams opened by the source
    are all closed"; the first error met is the one reported. *)
Fixpoint ensureAllBlobsDone (streamsOrErrors : list streamOrErr)
    (retErr : option error) (log : Log) : option error * Log :=
  match streamsOrErrors with
  | [] => (retErr, log)
  | SoeStream s :: rest =>
      ensureAllBlobsDone rest retErr
        (log ++ [EvRecv (stream_id s); EvClose (stream_id s)])
  | SoeErr e :: rest =>
      ensureAllBlobsDone rest (match retErr with None => Some e | _ => retErr end) log
  end.

(** *** The gzip-family format *)

(** Lines 64-72: the loop over the outcomes of the footer request. The
    assignment [_, err = io.ReadFull(...)] overwrites [err]. *)
Fixpoint estargz_footer_loop (streamsOrErrors : list streamOrErr)
    (footer : bytes) (err : option error) (log : Log)
  : bytes * option error * Log :=
  match streamsOrErrors with
  | [] => (footer, err, log)
  | SoeStream s :: rest =>
      let '(footer', err') := io_ReadFull (stream_reader s) footer in
      estargz_footer_loop rest footer' err'
        (log ++ [EvRecv (stream_id s); EvClose (stream_id s)])
  | SoeErr e :: rest =>
      estargz_footer_loop rest footer
        (match err with None => Some e | _ => err end) log
  end.

(** Lines 103-128: the function literal run on one stream. It returns the new
    value of the captured [manifestUncompressed] and its error. *)
Definition estargz_read_entry (s : Stream) (manifestUncompressed : option bytes)
  : option bytes * option error :=
  match pgzip_NewReader E (stream_reader s) with
  | Err e => (manifestUncompressed, Some e)
  | Ok r =>
      match archivetar_Next E r with
      | Err e => (manifestUncompressed, Some e)
      | Ok (size, aTar) =>
          if size >? maxTocSize then (manifestUncompressed, Some ErrManifestTooBig)
          else
            let '(buf, rerr) := io_ReadFull aTar (make_bytes size) in
            (Some buf, rerr)
      end
  end.

(** Lines 101-135: the loop over the outcomes of the manifest request. *)
Fixpoint estargz_manifest_loop (streamsOrErrors : list streamOrErr)
    (manifestUncompressed : option bytes) (err : option error) (log : Log)
  : option bytes * option error * Log :=
  match streamsOrErrors with
  | [] => (manifestUncompressed, err, log)
  | SoeStream s :: rest =>
      let '(m', err1) := estargz_read_entry s manifestUncompressed in
      estargz_manifest_loop rest m'
        (match err with None => err1 | _ => err end)
        (log ++ [EvRecv (stream_id s);
                 EvDecompress (r_data (stream_reader s));
                 EvClose (stream_id s)])
  | SoeErr e :: rest =>
      estargz_manifest_loop rest manifestUncompressed
        (match err with None => Some e | _ => err end) log
  end.

(** The result tuple [([]byte, int64, error)]. *)
Definition EstargzResult : Type := (option bytes * Z * option error)%type.

(** [readEstargzChunkedManifest]. The error collected by either loop is
    overwritten by the next assignment to [err] before it is looked at. *)
Definition readEstargzChunkedManifest (blobStream : Source) (blobSize : Z)
    (annotations : gmap string string) (log : Log) : EstargzResult * Log :=
  let footerSize := 51 in
  if blobSize <=? footerSize then ((None, 0, Some ErrBlobTooSmall), log)
  else
    let footer := make_bytes footerSize in
    match getBlobAt blobStream
            [mkChunk (uint64 (blobSize - footerSize)) (uint64 footerSize)] log with
    | (Err e, log1) => ((None, 0, Some e), log1)
    | (Ok streamsOrErrors, log1) =>
        let '(footer1, _, log2) := estargz_footer_loop streamsOrErrors footer None log1 in
        match strconv_ParseInt16 E (slice 16 (16 + 22 - 6) footer1) with
        | Err e => ((None, 0, Some (ErrParseTocOffset e)), log2)
        | Ok tocOffset =>
            let size := int64 (blobSize - footerSize - tocOffset) in
            if size >? maxTocSize then ((None, 0, Some ErrManifestTooBig), log2)
            else
              match getBlobAt blobStream
                      [mkChunk (uint64 tocOffset) (uint64 size)] log2 with
              | (Err e, log3) => ((None, 0, Some e), log3)
              | (Ok streamsOrErrors2, log3) =>
                  let '(manifestUncompressed, _, log4) :=
                    estargz_manifest_loop streamsOrErrors2 None None log3 in
                  match manifestUncompressed with
                  | None => ((None, 0, Some ErrManifestNotFound), log4)
                  | Some m =>
                      let d := annotation annotations (TOCJSONDigestAnnotation E) in
                      match digest_Validate E d with
                      | Some e => ((None, 0, Some e), log4)
                      | None =>
                          if negb (String.eqb (digest_Canonical E m) d)
                          then ((None, 0, Some ErrInvalidManifestChecksum), log4)
                          else ((Some m, tocOffset, None), log4)
                      end
                  end
              end
        end
    end.

(** *** The native format *)

(** The variables declared at lines 171-174, as they stand at line 216. *)
Record ManifestLocation : Type := mkLocation {
  loc_offset : Z;
  loc_length : Z;
  loc_lengthUncompressed : Z;
  loc_manifestType : Z;
  loc_offsetTarSplit : Z;
  loc_lengthTarSplit : Z;
  loc_lengthUncompressedTarSplit : Z;
  loc_tarSplitChecksumAnnotation : string
}.

(** The result tuple [([]byte, []byte, int64, error)], or a run-time panic. *)
Definition ZstdTuple : Type := (option bytes * option bytes * Z * option error)%type.

Inductive ZstdResult : Type :=
  | Returned (t : ZstdTuple)
  | Panicked.

Definition fails (e : error) : ZstdResult := Returned (None, None, 0, Some e).

Inductive Located : Type :=
  | LocOk (loc : ManifestLocation)
  | LocReturn (r : ZstdResult).

(** The footer request of line 188. *)
Definition footerChunk (blobSize : Z) : ImageSourceChunk :=
  mkChunk (uint64 (blobSize - FooterSizeSupported)) (uint64 FooterSizeSupported).

(** Lines 176-186: the offsets are taken from the annotations. *)
Definition locate_annotations (offsetMetadata : string)
    (annotations : gmap string string) : Located :=
  match Sscanf4 E offsetMetadata with
  | Err e => LocReturn (fails e)
  | Ok (offset, length, lengthUncompressed, manifestType) =>
      match annotations !! TarSplitInfoKey E with
      | Some tarSplitInfoKeyAnnotation =>
          match Sscanf3 E tarSplitInfoKeyAnnotation with
          | Err e => LocReturn (fails e)
          | Ok (offsetTarSplit, lengthTarSplit, lengthUncompressedTarSplit) =>
              LocOk (mkLocation offset length lengthUncompressed manifestType
                       offsetTarSplit lengthTarSplit lengthUncompressedTarSplit
                       (annotation annotations (TarSplitChecksumKey E)))
          end
      | None =>
          LocOk (mkLocation offset length lengthUncompressed manifestType
                   0 0 0 EmptyString)
      end
  end.

(** Lines 203-214: the footer is read from the stream and parsed. The stream
    is not closed here. *)
Definition parse_footer (reader : Stream) : Located :=
  let footer := make_bytes FooterSizeSupported in
  match io_ReadFull (stream_reader reader) footer with
  | (_, Some e) => LocReturn (fails e)
  | (footer, None) =>
      let offset := LittleEndian_Uint64 (slice 0 8 footer) in
      let length := LittleEndian_Uint64 (slice 8 16 footer) in
      let lengthUncompressed := LittleEndian_Uint64 (slice 16 24 footer) in
      let manifestType := LittleEndian_Uint64 (slice 24 32 footer) in
      if negb (isZstdChunkedFrameMagic (slice 48 56 footer))
      then LocReturn (fails ErrInvalidMagic)
      else LocOk (mkLocation offset length lengthUncompressed manifestType
                    0 0 0 EmptyString)
  end.

(** Lines 187-215: the footer is requested through the source's own
    [GetBlobAt] and the first thing it sends decides the [select]. When the
    source closes both channels without sending, either case can be taken: the
    parts case yields a nil reader, on which [io.ReadFull] panics; the errs
    case yields a nil error, which is returned. *)
Definition locate_footer (blobStream : Source) (blobSize : Z) (log : Log)
  : Located * Log :=
  match GetBlobAt blobStream [footerChunk blobSize] log with
  | (Err e, log1) => (LocReturn (fails e), log1)
  | (Ok [], log1) =>
      if select_closed_takes_errs E
      then (LocReturn (Returned (None, None, 0, None)), log1)
      else (LocReturn Panicked, log1)
  | (Ok (SoeErr e :: _), log1) => (LocReturn (fails e), log1)
  | (Ok (SoeStream reader :: _), log1) =>
      (parse_footer reader, log1 ++ [EvRecv (stream_id reader)])
  end.

(** Lines 256-271: the closure [readBlob]; it receives from the captured
    channel, so the rest of the channel is returned too. *)
Definition readBlob (streamsOrErrors : list streamOrErr) (len : Z) (log : Log)
  : res bytes * list streamOrErr * Log :=
  match streamsOrErrors with
  | [] => (Err ErrStreamClosed, [], log)
  | SoeErr e :: rest => (Err e, rest, log)
  | SoeStream s :: rest =>
      let log' := log ++ [EvRecv (stream_id s); EvClose (stream_id s)] in
      match io_ReadFull (stream_reader s) (make_bytes len) with
      | (_, Some e) => (Err e, rest, log')
      | (blob, None) => (Ok blob, rest, log')
      end
  end.

(** Lines 273-294: what runs between the registration of the deferred call and
    the return statement. *)
Definition read_and_validate (manifestChecksumAnnotation : string)
    (loc : ManifestLocation) (streamsOrErrors : list streamOrErr) (log : Log)
  : ZstdTuple * list streamOrErr * Log :=
  match readBlob streamsOrErrors (loc_length loc) log with
  | (Err e, rest, log1) => ((None, None, 0, Some e), rest, log1)
  | (Ok manifest, rest, log1) =>
      match decodeAndValidateBlob manifest (loc_lengthUncompressed loc)
              manifestChecksumAnnotation log1 with
      | (Err e, log2) => ((None, None, 0, Some e), rest, log2)
      | (Ok decodedBlob, log2) =>
          if loc_offsetTarSplit loc >? 0 then
            match readBlob rest (loc_lengthTarSplit loc) log2 with
            | (Err e, rest', log3) => ((None, None, 0, Some e), rest', log3)
            | (Ok tarSplit, rest', log3) =>
                match decodeAndValidateBlob tarSplit
                        (loc_lengthUncompressedTarSplit loc)
                        (loc_tarSplitChecksumAnnotation loc) log3 with
                | (Err e, log4) => ((None, None, 0, Some e), rest', log4)
                | (Ok decodedTarSplit, log4) =>
                    ((Some decodedBlob, Some decodedTarSplit,
                      int64 (loc_offset loc), None), rest', log4)
                end
            end
          else ((Some decodedBlob, Some [], int64 (loc_offset loc), None), rest, log2)
      end
  end.

(** The chunks requested at line 244. *)
Definition manifestChunks (loc : ManifestLocation) : list ImageSourceChunk :=
  let chunks := [mkChunk (loc_offset loc) (loc_length loc)] in
  if loc_offsetTarSplit loc >? 0
  then chunks ++ [mkChunk (loc_offsetTarSplit loc) (loc_lengthTarSplit loc)]
  else chunks.

(** Lines 217-295. *)
Definition fetch_and_validate (blobStream : Source)
    (manifestChecksumAnnotation : string) (loc : ManifestLocation) (log : Log)
  : ZstdResult * Log :=
  if negb (loc_manifestType loc =? ManifestTypeCRFS)
  then (fails ErrInvalidManifestType, log)
  else if loc_length loc >? maxTocSize then (fails ErrManifestTooBig, log)
  else if loc_lengthUncompressed loc >? maxTocSize then (fails ErrManifestTooBig, log)
  else
    match getBlobAt blobStream (manifestChunks loc) log with
    | (Err e, log1) => (fails e, log1)
    | (Ok streamsOrErrors, log1) =>
        let '((m, t, o, retErr), rest, log2) :=
          read_and_validate manifestChecksumAnnotation loc streamsOrErrors log1 in
        (* the deferred call of lines 249-254 *)
        let '(err, log3) := ensureAllBlobsDone rest None log2 in
        (Returned (m, t, o, match retErr with None => err | _ => retErr end), log3)
    end.

(** Lines 171-215: the location comes from the annotations or from the
    footer. *)
Definition locate (blobStream : Source) (blobSize : Z)
    (annotations : gmap string string) (log : Log) : Located * Log :=
  let offsetMetadata := annotation annotations (ManifestInfoKey E) in
  if negb (String.eqb offsetMetadata EmptyString)
  then (locate_annotations offsetMetadata annotations, log)
  else locate_footer blobStream blobSize log.

(** [readZstdChunkedManifest] *)
Definition readZstdChunkedManifest (blobStream : Source) (blobSize : Z)
    (annotations : gmap string string) (log : Log) : ZstdResult * Log :=
  let footerSize := FooterSizeSupported in
  if blobSize <=? footerSize then (fails ErrBlobTooSmall, log)
  else
    let manifestChecksumAnnotation := annotation annotations (ManifestChecksumKey E) in
    if String.eqb manifestChecksumAnnotation EmptyString
    then (fails ErrChecksumAnnotationNotFound, log)
    else
      match locate blobStream blobSize annotations log with
      | (LocReturn r, log1) => (r, log1)
      | (LocOk loc, log1) =>
          fetch_and_validate blobStream manifestChecksumAnnotation loc log1
      end.

End Reader.

(** ** Entry types *)

(** The names of the entry types, constants of the package declared outside
    this file, and the type flags of the package tar they stand for. In Go
    the seven names are distinct: a map literal with a repeated constant key
    does not compile. *)
Record TypeTable : Type := mkTypeTable {
  TypeReg : string;
  TypeLink : string;
  TypeChar : string;
  TypeBlock : string;
  TypeDir : string;
  TypeFifo : string;
  TypeSymlink : string;
  tar_TypeReg : byte;
  tar_TypeLink : byte;
  tar_TypeChar : byte;
  tar_TypeBlock : byte;
  tar_TypeDir : byte;
  tar_TypeFifo : byte;
  tar_TypeSymlink : byte
}.

(** The entries of the map literal [typesToTar], in source order. *)
Definition typesToTar_entries (T : TypeTable) : list (string * byte) :=
  [ (TypeReg T, tar_TypeReg T);
    (TypeLink T, tar_TypeLink T);
    (TypeChar T, tar_TypeChar T);
    (TypeBlock T, tar_TypeBlock T);
    (TypeDir T, tar_TypeDir T);
    (TypeFifo T, tar_TypeFifo T);
    (TypeSymlink T, tar_TypeSymlink T) ].

(** [typesToTar] *)
Definition typesToTar (T : TypeTable) : gmap string byte :=
  list_to_map (typesToTar_entries T).

(** [fmt.Errorf("unknown type: %v", t)] *)
Inductive typeError : Type :=
  | UnknownType (t : string).

(** [typeToTarType]; the zero byte returned next to the error is left out. *)
Definition typeToTarType (T : TypeTable) (t : string) : typeError + byte :=
  match typesToTar T !! t with
  | Some r => inr r
  | None => inl (UnknownType t)
  end.

(** ** Reaching the manifest request *)

(** The call of [readZstdChunkedManifest] passes every test of lines 161-227
    and arrives at the request of line 244 with the location [loc] and the
    log [log1]. *)
Definition reaches_fetch (E : Env) (src : Source) (blobSize : Z)
    (annotations : gmap string string) (log : Log)
    (loc : ManifestLocation) (log1 : Log) : Prop :=
  56 < blobSize /\
  annotation annotations (ManifestChecksumKey E) <> EmptyString /\
  locate E src blobSize annotations log = (LocOk loc, log1) /\
  loc_manifestType loc = ManifestTypeCRFS /\
  loc_length loc <= maxTocSize /\
  loc_lengthUncompressed loc <= maxTocSize.

(** The bytes [blob] carry the digest that the checksum string [cs] names. *)
Definition validated (E : Env) (cs : string) (blob : bytes) : Prop :=
  digest_Validate E cs = None /\ digest_FromBytes E cs blob = cs.

(** The streams among the outcomes of a channel. *)
Definition stream_ids (chan : list streamOrErr) : list StreamId :=
  omap (fun soe => match soe with SoeStream s => Some (stream_id s) | SoeErr _ => None end)
    chan.

(** The reader [r] delivers at least [len] bytes, the first [len] of which
    carry the digest named by [cs] and decode to [decoded]. *)
Definition delivers_valid (E : Env) (cs : string) (len lenUncompressed : Z)
    (r : Reader) (decoded : bytes) : Prop :=
  (Z.to_nat len <= length (r_data r))%nat /\
  validated E cs (take (Z.to_nat len) (r_data r)) /\
  zstd_NewReader E = None /\
  zstd_DecodeAll E (take (Z.to_nat len) (r_data r)) lenUncompressed = Ok decoded.

(** Lines 136-154: what the gzip-family reader returns once the loop over
    the manifest streams has ended. *)
Definition estargz_verdict (E : Env) (annotations : gmap string string)
    (manifestUncompressed : option bytes) (tocOffset : Z) : EstargzResult :=
  match manifestUncompressed with
  | None => (None, 0, Some ErrManifestNotFound)
  | Some m =>
      let d := annotation annotations (TOCJSONDigestAnnotation E) in
      match digest_Validate E d with
      | Some e => (None, 0, Some e)
      | None =>
          if negb (String.eqb (digest_Canonical E m) d)
          then (None, 0, Some ErrInvalidManifestChecksum)
          else (Some m, tocOffset, None)
      end
  end.

(** The call of [readEstargzChunkedManifest] is delivered [outs] for its
    footer request, parses the ToC offset [tocOffset] from what it has read,
    and finds the derived size within the ceiling: it arrives at the request
    of line 94. *)
Definition estargz_located (E : Env) (src : Source) (blobSize : Z) (log : Log)
    (outs : list (res Reader)) (tocOffset : Z) : Prop :=
  51 < blobSize /\
  src (length (requests log)) [mkChunk (uint64 (blobSize - 51)) (uint64 51)]
    = Delivers outs /\
  strconv_ParseInt16 E
    (slice 16 32
       (fst (fst (estargz_footer_loop (tag_from (length (requests log)) 0 outs)
                    (make_bytes 51) None
                    (log ++ [EvGetBlobAt [mkChunk (uint64 (blobSize - 51)) (uint64 51)]])))))
    = Ok tocOffset /\
  int64 (blobSize - 51 - tocOffset) <= maxTocSize.

(** The request of line 94. *)
Definition tocChunk (blobSize tocOffset : Z) : ImageSourceChunk :=
  mkChunk (uint64 tocOffset) (uint64 (int64 (blobSize - 51 - tocOffset))).

(** Lengths within the ceiling the reader applies to the manifest. *)
Definition within_ceiling (n : Z) : Prop := 0 <= n <= maxTocSize.

(** ** A test double for the collaborators

    A small, executable environment on which the reader can be run: the real
    keys and magic of the format, a collision-free stand-in for the digest
    (the bytes themselves, prefixed by [id:]), a stored-block stand-in for
    zstd (a frame is the byte [Z] followed by its content), the identity for
    gzip, and an archive whose header is the entry size as 8 little-endian
    bytes. *)
Module Mock.

Definition magic : bytes := [x47; x6e; x55; x6c; x49; x4e; x55; x78].

Definition validate (d : string) : option error :=
  if String.prefix "id:" d then None else Some (ErrExternal "invalid checksum digest format").

Definition from_bytes (b : bytes) : string :=
  String.append "id:" (string_of_list_byte b).

Definition decode_all (input : bytes) (capacity : Z) : res bytes :=
  match input with
  | x5a :: content => Ok content
  | _ => Err (ErrExternal "invalid input: magic number mismatch")
  end.

Definition digit (a : ascii) : option Z :=
  let n := Z.of_nat (nat_of_ascii a) in
  if (48 <=? n) && (n <=? 57) then Some (n - 48) else None.

Definition hex_digit (b : byte) : option Z :=
  let n := byte_val b in
  if (48 <=? n) && (n <=? 57) then Some (n - 48)
  else if (97 <=? n) && (n <=? 102) then Some (n - 87)
  else if (65 <=? n) && (n <=? 70) then Some (n - 55)
  else None.

(** Splits at colons and reads each field as a decimal number. *)
Fixpoint scan_fields (s : string) (cur : option Z) : option (list Z) :=
  match s with
  | EmptyString => match cur with Some n => Some [n] | None => None end
  | String a s' =>
      if Ascii.eqb a ":"%char then
        match cur, scan_fields s' None with
        | Some n, Some rest => Some (n :: rest)
        | _, _ => None
        end
      else
        match digit a with
        | Some d => scan_fields s' (Some (10 * default 0 cur + d))
        | None => None
        end
  end.

Definition sscanf4 (s : string) : res (Z * Z * Z * Z) :=
  match scan_fields s None with
  | Some [a; b; c; d] => Ok (a, b, c, d)
  | _ => Err (ErrExternal "unexpected input")
  end.

Definition sscanf3 (s : string) : res (Z * Z * Z) :=
  match scan_fields s None with
  | Some [a; b; c] => Ok (a, b, c)
  | _ => Err (ErrExternal "unexpected input")
  end.

Fixpoint hex_value (b : bytes) (acc : Z) : option Z :=
  match b with
  | [] => Some acc
  | x :: b' =>
      match hex_digit x with
      | Some d => hex_value b' (16 * acc + d)
      | None => None
      end
  end.

Definition parse_int16 (b : bytes) : res Z :=
  match b with
  | [] => Err (ErrExternal "invalid syntax")
  | _ =>
      match hex_value b 0 with
      | Some n => if n <? 2 ^ 63 then Ok n else Err (ErrExternal "value out of range")
      | None => Err (ErrExternal "invalid syntax")
      end
  end.

Definition tar_next (r : Reader) : res (Z * Reader) :=
  if (length (r_data r) <? 8)%nat then Err ErrUnexpectedEOF
  else Ok (LittleEndian_Uint64 (take 8 (r_data r)),
           mkReader (drop 8 (r_data r)) (r_fail r)).

Definition env : Env := {|
  ZstdChunkedFrameMagic := magic;
  ManifestChecksumKey := "io.github.containers.zstd-chunked.manifest-checksum";
  ManifestInfoKey := "io.github.containers.zstd-chunked.manifest-position";
  TarSplitInfoKey := "io.github.containers.zstd-chunked.tarsplit-position";
  TarSplitChecksumKey := "io.github.containers.zstd-chunked.tarsplit-checksum";
  TOCJSONDigestAnnotation := "containerd.io/snapshot/stargz/toc.digest";
  digest_Validate := validate;
  digest_FromBytes := fun _ b => from_bytes b;
  digest_Canonical := from_bytes;
  Sscanf4 := sscanf4;
  Sscanf3 := sscanf3;
  strconv_ParseInt16 := parse_int16;
  zstd_NewReader := None;
  zstd_DecodeAll := decode_all;
  pgzip_NewReader := fun r => Ok r;
  archivetar_Next := tar_next;
  select_closed_takes_errs := true
|}.

(** The bytes of an ASCII string. *)
Definition b (s : string) : bytes := list_byte_of_string s.

(** A source that answers every request with the same deliveries. *)
Definition always (outs : list (res Reader)) : Source := fun _ _ => Delivers outs.

(** A source that answers its first request with [first] and every later one
    with [later]. *)
Definition first_then (first later : list (res Reader)) : Source :=
  fun n _ => match n with O => Delivers first | _ => Delivers later end.

(** The [k] low bytes of [n], least significant first. *)
Fixpoint le_bytes (k : nat) (n : Z) : bytes :=
  match k with
  | O => []
  | S k' => default x00 (Byte.of_N (Z.to_N (n mod 256))) :: le_bytes k' (n / 256)
  end.

(** A native footer: four 8-byte fields, 16 unused bytes, the magic. *)
Definition footer (offset length lengthUncompressed manifestType : Z)
    (magic8 : bytes) : bytes :=
  le_bytes 8 offset ++ le_bytes 8 length ++ le_bytes 8 lengthUncompressed
    ++ le_bytes 8 manifestType ++ repeat x00 16 ++ magic8.

(** Only the checksum annotation of the manifest [Zhello]. *)
Definition ann_checksum : gmap string string :=
  {[ ManifestChecksumKey env := "id:Zhello"%string ]}.

(** The manifest [Zhello] at offset 10, announced by the annotations. *)
Definition ann_position : gmap string string :=
  <[ ManifestInfoKey env := "10:6:5:1"%string ]> ann_checksum.

Definition manifest_stream : res Reader := Ok (mkReader (b "Zhello") None).

(** A blob whose footer announces the manifest [Zhello] at offset 10. *)
Definition src_footer : Source :=
  first_then [Ok (mkReader (footer 10 6 5 1 magic) None)] [manifest_stream].

(** The same blob with the magic of the footer overwritten. *)
Definition src_bad_magic : Source :=
  first_then [Ok (mkReader (footer 10 6 5 1 (b "NotMagic")) None)] [manifest_stream].

(** A gzip-family footer: the 16 hexadecimal digits of the ToC offset at
    bytes [16:32). *)
Definition estargz_footer (hex : string) : bytes :=
  repeat x00 16 ++ b hex ++ b "STARGZ" ++ repeat x00 13.

(** A gzip-family blob of 100 bytes whose footer places the manifest at offset
    1000, beyond the end of the blob. *)
Definition src_toc_beyond_end : Source :=
  always [Ok (mkReader (estargz_footer "00000000000003e8") None)].

(** A gzip-family blob of 100 bytes with a 29-byte manifest range at offset
    20, whose archive header declares an entry of 50 MiB + 1 bytes. *)
Definition huge_entry : Reader := mkReader (le_bytes 8 52428801) None.

Definition src_huge_entry : Source :=
  first_then [Ok (mkReader (estargz_footer "0000000000000014") None)]
             [Ok huge_entry].

(** A gzip-family blob of 1 GiB whose footer places the manifest at offset 0. *)
Definition src_huge_toc : Source :=
  always [Ok (mkReader (estargz_footer "0000000000000000") None)].

(** Annotations that declare a manifest of 50 MiB + 1 compressed bytes. *)
Definition ann_too_big : gmap string string :=
  <[ ManifestInfoKey env := "10:52428801:5:1"%string ]> ann_checksum.


(** Annotations that also announce the companion [Zsplit] at offset 20. *)
Definition ann_companion : gmap string string :=
  <[ TarSplitInfoKey env := "20:6:5"%string ]>
  (<[ TarSplitChecksumKey env := "id:Zsplit"%string ]> ann_position).

Definition src_companion : Source :=
  always [manifest_stream; Ok (mkReader (b "Zsplit") None)].





(** The entry-type names of the package and the type flags of tar. *)
Definition types : TypeTable := {|
  TypeReg := "reg"; TypeLink := "hardlink"; TypeChar := "char";
  TypeBlock := "block"; TypeDir := "dir"; TypeFifo := "fifo";
  TypeSymlink := "symlink";
  tar_TypeReg := "0"; tar_TypeLink := "1"; tar_TypeChar := "3";
  tar_TypeBlock := "4"; tar_TypeDir := "5"; tar_TypeFifo := "6";
  tar_TypeSymlink := "2"
|}.

(** The location announced by [ann_position]. *)
Definition loc_position : ManifestLocation :=
  mkLocation 10 6 5 1 0 0 0 EmptyString.

(** The location announced by [ann_companion]. *)
Definition loc_companion : ManifestLocation :=
  mkLocation 10 6 5 1 20 6 5 "id:Zsplit".

(** A gzip-family blob of 100 bytes with its manifest range at offset 20; the
    archive in it holds one entry, [toc]. *)
Definition toc_entry : Reader := mkReader (le_bytes 8 3 ++ b "toc") None.

Definition src_estargz : Source :=
  first_then [Ok (mkReader (estargz_footer "0000000000000014") None)]
             [Ok toc_entry].

Definition ann_toc : gmap string string :=
  {[ TOCJSONDigestAnnotation env := "id:toc"%string ]}.

(** The same blob with every footer byte outside [16:32) changed. *)
Definition src_estargz_scrambled : Source :=
  first_then [Ok (mkReader (repeat xff 16 ++ b "0000000000000014"
                              ++ repeat xff 19) None)]
             [Ok toc_entry].

End Mock.

(** ** Basic facts *)

Lemma String_eqb_true (s t : string) : String.eqb s t = true <-> s = t.
Proof. apply String.eqb_eq. Qed.

Lemma String_eqb_false (s t : string) : String.eqb s t = false <-> s <> t.
Proof. apply String.eqb_neq. Qed.

Lemma bytes_Equal_eq (a c : bytes) : bytes_Equal a c = true <-> a = c.
Proof.
  revert c. induction a as [|x a IH]; intros [|y c]; simpl; try (split; congruence).
  rewrite andb_true_iff, IH. unfold byte_eqb.
  split.
  - intros [Hxy ->]. apply Byte.byte_dec_bl in Hxy. now subst.
  - intros [= -> ->]. split; [apply Byte.byte_dec_lb|]; reflexivity.
Qed.

Lemma requests_app (l1 l2 : Log) : requests (l1 ++ l2) = requests l1 ++ requests l2.
Proof. apply omap_app. Qed.

Lemma received_app (l1 l2 : Log) : received (l1 ++ l2) = received l1 ++ received l2.
Proof. apply omap_app. Qed.

Lemma closed_app (l1 l2 : Log) : closed (l1 ++ l2) = closed l1 ++ closed l2.
Proof. apply omap_app. Qed.

Lemma decompressions_app (l1 l2 : Log) :
  decompressions (l1 ++ l2) = decompressions l1 ++ decompressions l2.
Proof. apply omap_app. Qed.

Lemma received_request (c : list ImageSourceChunk) : received [EvGetBlobAt c] = [].
Proof. reflexivity. Qed.

Lemma closed_request (c : list ImageSourceChunk) : closed [EvGetBlobAt c] = [].
Proof. reflexivity. Qed.

Lemma requests_request (c : list ImageSourceChunk) : requests [EvGetBlobAt c] = [c].
Proof. reflexivity. Qed.

(** Splits the projections of a log along its appended parts. *)
Ltac split_log :=
  rewrite ?received_app, ?closed_app, ?requests_app, ?decompressions_app,
    ?received_request, ?closed_request, ?requests_request.

(** ** The blob digest validator *)

Section Validator.

Variable E : Env.

(** When and with what [decodeAndValidateBlob] succeeds. *)
Lemma decodeAndValidateBlob_Ok (blob : bytes) (lengthUncompressed : Z)
    (checksum : string) (log : Log) (out : bytes) :
  fst (decodeAndValidateBlob E blob lengthUncompressed checksum log) = Ok out <->
  digest_Validate E checksum = None /\
  digest_FromBytes E checksum blob = checksum /\
  zstd_NewReader E = None /\
  zstd_DecodeAll E blob lengthUncompressed = Ok out.
Proof.
  unfold decodeAndValidateBlob.
  destruct (digest_Validate E checksum) as [e|]; simpl.
  { split; [discriminate | intros [? _]; discriminate]. }
  destruct (String.eqb (digest_FromBytes E checksum blob) checksum) eqn:Hd; simpl.
  - apply String_eqb_true in Hd.
    destruct (zstd_NewReader E) as [e|]; simpl.
    + split; [discriminate | intros (_ & _ & ? & _); discriminate].
    + split; [intros ->; auto | intros (_ & _ & _ & ->); reflexivity].
  - apply String_eqb_false in Hd.
    split; [discriminate | intros (_ & ? & _); contradiction].
Qed.

(** The log grows by at most the one decompression. *)
Lemma decodeAndValidateBlob_log (blob : bytes) (lengthUncompressed : Z)
    (checksum : string) (log : Log) :
  snd (decodeAndValidateBlob E blob lengthUncompressed checksum log) = log \/
  snd (decodeAndValidateBlob E blob lengthUncompressed checksum log)
    = log ++ [EvDecompress blob].
Proof.
  unfold decodeAndValidateBlob.
  destruct (digest_Validate E checksum); simpl; auto.
  destruct (negb _); simpl; auto.
  destruct (zstd_NewReader E); simpl; auto.
Qed.

End Validator.

(** C1, as stated, fails: the blob [Zhello] carries the digest that is
    expected, [id:Zhello], so its content [hello] is returned, although the
    digest of the returned bytes, [id:hello], is not the expected one. *)
Lemma C1_counterexample :
  fst (decodeAndValidateBlob Mock.env (Mock.b "Zhello") 5 "id:Zhello" [])
    = Ok (Mock.b "hello") /\
  digest_FromBytes Mock.env "id:Zhello" (Mock.b "hello") <> "id:Zhello"%string.
Proof. split; [reflexivity | discriminate]. Qed.

(** C1, amended: [decodeAndValidateBlob] returns the decompressed bytes exactly
    when the expected checksum string parses, the digest computed over the
    fetched blob, as it arrived and before any decompression, equals it, and
    the decoder accepts the blob; otherwise it returns an error. No digest of
    the decompressed bytes is taken. *)
Theorem C1_digest_is_over_fetched_blob (E : Env) (blob : bytes)
    (lengthUncompressed : Z) (checksum : string) (log : Log) :
  (forall out : bytes,
     fst (decodeAndValidateBlob E blob lengthUncompressed checksum log) = Ok out <->
     digest_Validate E checksum = None /\
     digest_FromBytes E checksum blob = checksum /\
     zstd_NewReader E = None /\
     zstd_DecodeAll E blob lengthUncompressed = Ok out) /\
  ((exists out, fst (decodeAndValidateBlob E blob lengthUncompressed checksum log) = Ok out) \/
   (exists e, fst (decodeAndValidateBlob E blob lengthUncompressed checksum log) = Err e)).
Proof.
  split.
  - intros out. apply decodeAndValidateBlob_Ok.
  - destruct (fst (decodeAndValidateBlob E blob lengthUncompressed checksum log));
      [left | right]; eauto.
Qed.

(** C10: the declared uncompressed length reaches the decoder as the capacity
    of the output buffer and nothing else. For declared lengths that can be
    allocated, here those within the ceiling of 50 MiB, and with a decoder
    whose output does not depend on the capacity it is handed, a call that
    succeeds for one declared length succeeds with the same bytes for every
    other, so also for declared lengths above and below the number of bytes
    returned. *)
Theorem C10_declared_length_never_compared (E : Env)
    (Hcap : forall input c1 c2, within_ceiling c1 -> within_ceiling c2 ->
              zstd_DecodeAll E input c1 = zstd_DecodeAll E input c2)
    (blob : bytes) (declared : Z) (checksum : string) (log : Log) (out : bytes) :
  within_ceiling declared ->
  fst (decodeAndValidateBlob E blob declared checksum log) = Ok out ->
  forall declared' : Z,
    within_ceiling declared' ->
    fst (decodeAndValidateBlob E blob declared' checksum log) = Ok out.
Proof.
  intros Hin H declared' Hin'.
  apply decodeAndValidateBlob_Ok in H. apply decodeAndValidateBlob_Ok.
  destruct H as (Hv & Hd & Hn & Hz). repeat split; auto.
  now rewrite (Hcap blob declared' declared Hin' Hin).
Qed.

(** Five bytes are returned for a declared length of 4 and of 6. *)
Lemma C10_witness :
  fst (decodeAndValidateBlob Mock.env (Mock.b "Zhello") 5 "id:Zhello" [])
    = Ok (Mock.b "hello") /\
  fst (decodeAndValidateBlob Mock.env (Mock.b "Zhello") 4 "id:Zhello" [])
    = Ok (Mock.b "hello") /\
  fst (decodeAndValidateBlob Mock.env (Mock.b "Zhello") 6 "id:Zhello" [])
    = Ok (Mock.b "hello").
Proof.
  split; [reflexivity |].
  split;
    apply (C10_declared_length_never_compared Mock.env (fun _ _ _ _ _ => eq_refl)
             (Mock.b "Zhello") 5 "id:Zhello" [] (Mock.b "hello"));
    try reflexivity; split; vm_compute; discriminate.
Defined.

(** ** Guards of the two readers *)

(** C7: a blob whose size does not exceed the footer size, 51 bytes for the
    gzip-family format and 56 bytes for the native format, is refused with
    the blob-too-small error and nothing is requested from the source. *)
Theorem C7_blob_too_small (E : Env) (src : Source) (blobSize : Z)
    (annotations : gmap string string) (log : Log) :
  (blobSize <= 51 ->
   readEstargzChunkedManifest E src blobSize annotations log
     = ((None, 0, Some ErrBlobTooSmall), log)) /\
  (blobSize <= 56 ->
   readZstdChunkedManifest E src blobSize annotations log
     = (fails ErrBlobTooSmall, log)).
Proof.
  split; intros H.
  - unfold readEstargzChunkedManifest.
    destruct (Z.leb_spec blobSize 51); [reflexivity | lia].
  - unfold readZstdChunkedManifest, FooterSizeSupported.
    destruct (Z.leb_spec blobSize 56); [reflexivity | lia].
Qed.

Lemma C7_witness :
  readEstargzChunkedManifest Mock.env (Mock.always []) 51 ∅ []
    = ((None, 0, Some ErrBlobTooSmall), []) /\
  readZstdChunkedManifest Mock.env (Mock.always []) 56 ∅ []
    = (fails ErrBlobTooSmall, []).
Proof.
  split.
  - apply (proj1 (C7_blob_too_small Mock.env (Mock.always []) 51 ∅ [])). lia.
  - apply (proj2 (C7_blob_too_small Mock.env (Mock.always []) 56 ∅ [])). lia.
Defined.

(** C9, as stated, fails: without any annotation a blob of 10 bytes is refused
    as too small, not for the missing checksum annotation. *)
Lemma C9_counterexample :
  annotation ∅ (ManifestChecksumKey Mock.env) = EmptyString /\
  fst (readZstdChunkedManifest Mock.env (Mock.always []) 10 ∅ [])
    = fails ErrBlobTooSmall /\
  fst (readZstdChunkedManifest Mock.env (Mock.always []) 10 ∅ [])
    <> fails ErrChecksumAnnotationNotFound.
Proof. split; [reflexivity | split; [reflexivity | discriminate]]. Qed.

(** C9, amended: when the manifest-checksum annotation is absent or empty, the
    call fails before any fetch: with the checksum-annotation-not-found error
    when the blob is larger than the 56-byte footer, and with the
    blob-too-small error otherwise. A call without any annotation therefore
    never succeeds. *)
Theorem C9_missing_checksum_annotation (E : Env) (src : Source) (blobSize : Z)
    (log : Log) :
  (forall annotations : gmap string string,
     annotation annotations (ManifestChecksumKey E) = EmptyString ->
     readZstdChunkedManifest E src blobSize annotations log
       = (fails (if blobSize <=? 56 then ErrBlobTooSmall
                 else ErrChecksumAnnotationNotFound), log)) /\
  (exists e, readZstdChunkedManifest E src blobSize ∅ log = (fails e, log)).
Proof.
  assert (H : forall annotations : gmap string string,
     annotation annotations (ManifestChecksumKey E) = EmptyString ->
     readZstdChunkedManifest E src blobSize annotations log
       = (fails (if blobSize <=? 56 then ErrBlobTooSmall
                 else ErrChecksumAnnotationNotFound), log)).
  { intros annotations Ha. unfold readZstdChunkedManifest, FooterSizeSupported.
    destruct (blobSize <=? 56); [reflexivity |]. now rewrite Ha. }
  split; [exact H |].
  eexists. apply H. unfold annotation. now rewrite lookup_empty.
Qed.

Lemma C9_witness :
  readZstdChunkedManifest Mock.env (Mock.always []) 100
    {[ ManifestChecksumKey Mock.env := EmptyString ]} []
    = (fails ErrChecksumAnnotationNotFound, []).
Proof.
  apply (proj1 (C9_missing_checksum_annotation Mock.env (Mock.always []) 100 [])).
  reflexivity.
Defined.

(** ** Little-endian fields *)

Lemma byte_val_range (x : byte) : 0 <= byte_val x < 256.
Proof.
  unfold byte_val. pose proof (Byte.to_N_bounded x). lia.
Qed.

Lemma land_low_shifted (k x y : Z) :
  0 <= k -> 0 <= x < 2 ^ k -> Z.land x (Z.shiftl y k) = 0.
Proof.
  intros Hk Hx.
  apply Z.bits_inj'; intros i Hi. rewrite Z.land_spec, Z.bits_0.
  destruct (Z.lt_ge_cases i k) as [Hlt|Hge].
  - rewrite (Z.shiftl_spec_low y k i Hlt). apply andb_false_r.
  - destruct (Z.eq_dec x 0) as [->|Hx0]; [now rewrite Z.bits_0|].
    rewrite (Z.bits_above_log2 x i); [reflexivity | lia |].
    apply Z.lt_le_trans with k; [|assumption].
    apply Z.log2_lt_pow2; lia.
Qed.

Lemma lor_low_shifted (k x y : Z) :
  0 <= k -> 0 <= x < 2 ^ k -> Z.lor x (Z.shiftl y k) = x + y * 2 ^ k.
Proof.
  intros Hk Hx.
  rewrite <- Z.shiftl_mul_pow2 by assumption.
  rewrite <- Z.lxor_lor, <- Z.add_nocarry_lxor; auto using land_low_shifted.
Qed.

(** One more byte in front of an already assembled upper part. *)
Lemma lor_next_byte (x y j j' : Z) :
  0 <= j -> j' = j + 8 -> 0 <= x < 256 ->
  Z.lor (Z.shiftl x j) (Z.shiftl y j') = Z.shiftl (x + 256 * y) j.
Proof.
  intros Hj -> Hx.
  replace (Z.shiftl y (j + 8)) with (Z.shiftl (Z.shiftl y 8) j)
    by (rewrite Z.shiftl_shiftl by lia; f_equal; lia).
  rewrite <- Z.shiftl_lor, (lor_low_shifted 8 x y) by lia.
  f_equal. lia.
Qed.

(** Go's shift-and-or assembly of eight bytes is their base-256 value. *)
Lemma LittleEndian_Uint64_value (b : bytes) :
  length b = 8%nat -> LittleEndian_Uint64 b = le_value b.
Proof.
  intros Hlen.
  do 8 (destruct b as [|? b]; [discriminate|]).
  destruct b; [|discriminate]. clear Hlen.
  unfold LittleEndian_Uint64, le_value.
  repeat match goal with
         | x : byte |- _ => pose proof (byte_val_range x); generalize dependent (byte_val x); clear x; intros
         end.
  rewrite (lor_next_byte _ _ 48 56) by lia.
  rewrite (lor_next_byte _ _ 40 48) by lia.
  rewrite (lor_next_byte _ _ 32 40) by lia.
  rewrite (lor_next_byte _ _ 24 32) by lia.
  rewrite (lor_next_byte _ _ 16 24) by lia.
  rewrite (lor_next_byte _ _ 8 16) by lia.
  rewrite lor_low_shifted by lia.
  change (2 ^ 8) with 256. lia.
Qed.

(** ** The native footer *)

Lemma uint64_small (z : Z) : 0 <= z < 2 ^ 64 -> uint64 z = z.
Proof. intros H. unfold uint64. now apply Z.mod_small. Qed.

Lemma int64_small (z : Z) : - 2 ^ 63 <= z < 2 ^ 63 -> int64 z = z.
Proof. intros H. unfold int64. rewrite Z.mod_small; lia. Qed.

Lemma footerChunk_eq (blobSize : Z) :
  56 < blobSize < 2 ^ 63 -> footerChunk blobSize = mkChunk (blobSize - 56) 56.
Proof.
  intros H. unfold footerChunk, FooterSizeSupported.
  rewrite !uint64_small by lia. reflexivity.
Qed.

Lemma io_ReadFull_enough (r : Reader) (buf : bytes) :
  (length buf <= length (r_data r))%nat ->
  io_ReadFull r buf = (take (length buf) (r_data r), None).
Proof.
  intros H. unfold io_ReadFull.
  destruct (Nat.leb_spec (length buf) (length (r_data r))); [reflexivity | lia].
Qed.

Lemma length_make_bytes (n : Z) : length (make_bytes n) = Z.to_nat n.
Proof. apply repeat_length. Qed.

Lemma length_slice (lo hi : nat) (b : bytes) :
  (hi <= length b)%nat -> length (slice lo hi b) = (hi - lo)%nat.
Proof.
  intros H. unfold slice. rewrite length_take, length_drop. lia.
Qed.

Section NativeFooter.

Variable E : Env.

(** What a footer that was read in full is parsed to. *)
Lemma parse_footer_full (reader : Stream) :
  (56 <= length (r_data (stream_reader reader)))%nat ->
  let footer := take 56 (r_data (stream_reader reader)) in
  parse_footer E reader =
    if bytes_Equal (ZstdChunkedFrameMagic E) (slice 48 56 footer)
    then LocOk (mkLocation (le_value (slice 0 8 footer)) (le_value (slice 8 16 footer))
                  (le_value (slice 16 24 footer)) (le_value (slice 24 32 footer))
                  0 0 0 EmptyString)
    else LocReturn (fails ErrInvalidMagic).
Proof.
  intros Hlen footer. unfold parse_footer.
  rewrite io_ReadFull_enough
    by (rewrite length_make_bytes; unfold FooterSizeSupported; simpl; lia).
  rewrite length_make_bytes.
  change (Z.to_nat FooterSizeSupported) with 56%nat. fold footer.
  assert (Hf : length footer = 56%nat) by (unfold footer; rewrite length_take; lia).
  unfold isZstdChunkedFrameMagic.
  rewrite length_slice by lia. simpl (48 <? 8)%nat. cbv iota.
  replace (take 8 (slice 48 56 footer)) with (slice 48 56 footer)
    by (symmetry; apply take_ge; rewrite length_slice; lia).
  rewrite !LittleEndian_Uint64_value by (rewrite length_slice; lia).
  destruct (bytes_Equal _ _); reflexivity.
Qed.

End NativeFooter.

(** C6: without a metadata annotation the 56 bytes at [blobSize-56] are
    requested and read; offset, compressed length, uncompressed length and
    manifest-type tag are the little-endian values of footer bytes [0:8),
    [8:16), [16:24) and [24:32), with which the reader goes on; and unless
    bytes [48:56) are the magic constant, the call fails with the
    invalid-magic error whatever the other fields hold. *)
Theorem C6_native_footer_layout (E : Env) (src : Source) (blobSize : Z)
    (annotations : gmap string string) (log : Log)
    (r : Reader) (outs : list (res Reader)) :
  56 < blobSize < 2 ^ 63 ->
  annotation annotations (ManifestChecksumKey E) <> EmptyString ->
  annotation annotations (ManifestInfoKey E) = EmptyString ->
  src (length (requests log)) [mkChunk (blobSize - 56) 56] = Delivers (Ok r :: outs) ->
  (56 <= length (r_data r))%nat ->
  let footer := take 56 (r_data r) in
  let log1 := log ++ [EvGetBlobAt [mkChunk (blobSize - 56) 56];
                      EvRecv (length (requests log), 0%nat)] in
  (slice 48 56 footer <> ZstdChunkedFrameMagic E ->
   readZstdChunkedManifest E src blobSize annotations log
     = (fails ErrInvalidMagic, log1)) /\
  (slice 48 56 footer = ZstdChunkedFrameMagic E ->
   readZstdChunkedManifest E src blobSize annotations log
     = fetch_and_validate E src (annotation annotations (ManifestChecksumKey E))
         (mkLocation (le_value (slice 0 8 footer)) (le_value (slice 8 16 footer))
            (le_value (slice 16 24 footer)) (le_value (slice 24 32 footer))
            0 0 0 EmptyString)
         log1).
Proof.
  intros Hsize Hsum Hinfo Hsrc Hlen footer log1.
  assert (Hrun : readZstdChunkedManifest E src blobSize annotations log =
    match parse_footer E (mkStream (length (requests log), 0%nat) r) with
    | LocReturn res => (res, log1)
    | LocOk loc =>
        fetch_and_validate E src (annotation annotations (ManifestChecksumKey E)) loc log1
    end).
  { unfold readZstdChunkedManifest, FooterSizeSupported.
    destruct (Z.leb_spec blobSize 56); [lia|].
    apply String_eqb_false in Hsum. rewrite Hsum.
    unfold locate. rewrite Hinfo. simpl negb. cbv iota.
    unfold locate_footer, GetBlobAt.
    rewrite footerChunk_eq by assumption. rewrite Hsrc. simpl tag_from.
    cbv iota beta. rewrite <- app_assoc. reflexivity. }
  rewrite Hrun, parse_footer_full by exact Hlen.
  simpl stream_reader. fold footer.
  split; intros Hmagic.
  - destruct (bytes_Equal _ _) eqn:Heq; [|reflexivity].
    apply bytes_Equal_eq in Heq. congruence.
  - rewrite Hmagic.
    rewrite (proj2 (bytes_Equal_eq _ _) eq_refl). reflexivity.
Qed.

Lemma C6_witness :
  readZstdChunkedManifest Mock.env Mock.src_bad_magic 100 Mock.ann_checksum []
    = (fails ErrInvalidMagic,
       [EvGetBlobAt [mkChunk 44 56]; EvRecv (0%nat, 0%nat)]) /\
  readZstdChunkedManifest Mock.env Mock.src_footer 100 Mock.ann_checksum []
    = fetch_and_validate Mock.env Mock.src_footer "id:Zhello"
        (mkLocation 10 6 5 1 0 0 0 EmptyString)
        [EvGetBlobAt [mkChunk 44 56]; EvRecv (0%nat, 0%nat)].
Proof.
  split.
  - refine (proj1 (C6_native_footer_layout Mock.env Mock.src_bad_magic 100
                     Mock.ann_checksum []
                     (mkReader (Mock.footer 10 6 5 1 (Mock.b "NotMagic")) None) []
                     _ _ _ _ _) _).
    + lia.
    + vm_compute. discriminate.
    + reflexivity.
    + reflexivity.
    + vm_compute. lia.
    + vm_compute. discriminate.
  - refine (proj2 (C6_native_footer_layout Mock.env Mock.src_footer 100
                     Mock.ann_checksum []
                     (mkReader (Mock.footer 10 6 5 1 Mock.magic) None) []
                     _ _ _ _ _) _).
    + lia.
    + vm_compute. discriminate.
    + reflexivity.
    + reflexivity.
    + vm_compute. lia.
    + reflexivity.
Defined.

(** ** What the loops add to the log *)

Lemma drains_nil : drains [].
Proof. split; reflexivity. Qed.

Lemma drains_app (a c : Log) : drains a -> drains c -> drains (a ++ c).
Proof.
  intros [Ha1 Ha2] [Hc1 Hc2]. split.
  - rewrite requests_app, Ha1, Hc1. reflexivity.
  - rewrite received_app, closed_app, Ha2, Hc2. reflexivity.
Qed.

Lemma drains_quietly_nil : drains_quietly [].
Proof. split; [apply drains_nil | reflexivity]. Qed.

Lemma drains_quietly_app (a c : Log) :
  drains_quietly a -> drains_quietly c -> drains_quietly (a ++ c).
Proof.
  intros [Ha1 Ha2] [Hc1 Hc2]. split; [now apply drains_app|].
  rewrite decompressions_app, Ha2, Hc2. reflexivity.
Qed.

Lemma drains_quietly_recv_close (id : StreamId) :
  drains_quietly [EvRecv id; EvClose id].
Proof. repeat split. Qed.

Lemma drains_quietly_drains (a : Log) : drains_quietly a -> drains a.
Proof. now intros [H _]. Qed.

Create HintDb drain.

#[local] Hint Resolve drains_nil drains_app drains_quietly_nil drains_quietly_app
  drains_quietly_recv_close drains_quietly_drains : drain.

(** Closes a goal [exists added, log' = log ++ added /\ drains added] once
    [log'] is an explicit extension of [log]. *)
Ltac extends_log :=
  simpl; rewrite <- ?app_assoc;
  first [ eexists; split; [reflexivity | solve [eauto 8 with drain]]
        | exists []; rewrite ?app_nil_r; split; [reflexivity | solve [auto with drain]] ].

Section LogGrowth.

Variable E : Env.

Lemma estargz_footer_loop_log (chan : list streamOrErr) :
  forall (footer : bytes) (err : option error) (log : Log),
  exists added, snd (estargz_footer_loop chan footer err log) = log ++ added /\
                drains_quietly added.
Proof.
  induction chan as [|[s|e] chan IH]; intros footer err log; simpl.
  - exists []. rewrite app_nil_r. auto with drain.
  - destruct (io_ReadFull (stream_reader s) footer) as [footer' err'].
    destruct (IH footer' err' (log ++ [EvRecv (stream_id s); EvClose (stream_id s)]))
      as (added & -> & Hq).
    exists ([EvRecv (stream_id s); EvClose (stream_id s)] ++ added).
    rewrite app_assoc. auto with drain.
  - apply IH.
Qed.

Lemma estargz_manifest_loop_log (chan : list streamOrErr) :
  forall (m : option bytes) (err : option error) (log : Log),
  exists added, snd (estargz_manifest_loop E chan m err log) = log ++ added /\
                drains added.
Proof.
  induction chan as [|[s|e] chan IH]; intros m err log; simpl.
  - exists []. rewrite app_nil_r. auto with drain.
  - destruct (estargz_read_entry E s m) as [m' err1].
    match goal with |- context [estargz_manifest_loop E chan m' ?e ?l] =>
      destruct (IH m' e l) as (added & -> & Hq) end.
    eexists (_ ++ added). rewrite app_assoc. split; [reflexivity|].
    apply drains_app; [|assumption]. split; reflexivity.
  - apply IH.
Qed.

Lemma readBlob_log (chan : list streamOrErr) (len : Z) (log : Log) :
  exists added, snd (readBlob chan len log) = log ++ added /\ drains_quietly added.
Proof.
  destruct chan as [|[s|e] chan]; simpl.
  - exists []. rewrite app_nil_r. auto with drain.
  - destruct (io_ReadFull _ _) as [blob [e|]]; simpl; eauto with drain.
  - exists []. rewrite app_nil_r. auto with drain.
Qed.

Lemma ensureAllBlobsDone_log (chan : list streamOrErr) :
  forall (retErr : option error) (log : Log),
  exists added, snd (ensureAllBlobsDone chan retErr log) = log ++ added /\
                drains_quietly added.
Proof.
  induction chan as [|[s|e] chan IH]; intros retErr log; simpl.
  - exists []. rewrite app_nil_r. auto with drain.
  - destruct (IH retErr (log ++ [EvRecv (stream_id s); EvClose (stream_id s)]))
      as (added & -> & Hq).
    eexists (_ ++ added). rewrite app_assoc. eauto with drain.
  - apply IH.
Qed.

Lemma decodeAndValidateBlob_drains (blob : bytes) (len : Z) (checksum : string)
    (log : Log) :
  exists added, snd (decodeAndValidateBlob E blob len checksum log) = log ++ added /\
                drains added.
Proof.
  destruct (decodeAndValidateBlob_log E blob len checksum log) as [-> | ->].
  - exists []. rewrite app_nil_r. auto with drain.
  - eexists. split; [reflexivity|]. split; reflexivity.
Qed.

Lemma read_and_validate_log (checksum : string) (loc : ManifestLocation)
    (chan : list streamOrErr) (log : Log) :
  exists added, snd (read_and_validate E checksum loc chan log) = log ++ added /\
                drains added.
Proof.
  unfold read_and_validate.
  destruct (readBlob_log chan (loc_length loc) log) as (a1 & H1 & Hq1).
  destruct (readBlob chan (loc_length loc) log) as [[[manifest|e] rest] log1];
    simpl in H1; subst log1; [|extends_log].
  destruct (decodeAndValidateBlob_drains manifest (loc_lengthUncompressed loc)
              checksum (log ++ a1)) as (a2 & H2 & Hq2).
  destruct (decodeAndValidateBlob E manifest _ checksum (log ++ a1))
    as [[decodedBlob|e] log2]; simpl in H2; subst log2; [|extends_log].
  destruct (loc_offsetTarSplit loc >? 0); [|extends_log].
  destruct (readBlob_log rest (loc_lengthTarSplit loc) ((log ++ a1) ++ a2))
    as (a3 & H3 & Hq3).
  destruct (readBlob rest _ _) as [[[tarSplit|e] rest'] log3];
    simpl in H3; subst log3; [|extends_log].
  match goal with |- context [decodeAndValidateBlob E tarSplit ?l ?c ?lg] =>
    destruct (decodeAndValidateBlob_drains tarSplit l c lg) as (a4 & H4 & Hq4);
    destruct (decodeAndValidateBlob E tarSplit l c lg) as [[decodedTarSplit|e] log4]
  end; simpl in H4; subst log4; extends_log.
Qed.

End LogGrowth.

(** ** The gzip-family reader *)

Section Estargz.

Variable E : Env.

(** The run of [readEstargzChunkedManifest] once the footer has been
    delivered and its ToC offset parsed. *)
Lemma readEstargz_after_footer (src : Source) (blobSize : Z)
    (annotations : gmap string string) (log : Log)
    (outs : list (res Reader)) (tocOffset : Z) :
  51 < blobSize < 2 ^ 63 ->
  src (length (requests log)) [mkChunk (blobSize - 51) 51] = Delivers outs ->
  let log1 := log ++ [EvGetBlobAt [mkChunk (blobSize - 51) 51]] in
  let read := estargz_footer_loop (tag_from (length (requests log)) 0 outs)
                (make_bytes 51) None log1 in
  strconv_ParseInt16 E (slice 16 32 (fst (fst read))) = Ok tocOffset ->
  let size := int64 (blobSize - 51 - tocOffset) in
  exists added,
    snd read = log1 ++ added /\ drains_quietly added /\
    if size >? maxTocSize
    then readEstargzChunkedManifest E src blobSize annotations log
           = ((None, 0, Some ErrManifestTooBig), snd read)
    else exists more,
      snd (readEstargzChunkedManifest E src blobSize annotations log)
        = snd read ++ EvGetBlobAt [mkChunk (uint64 tocOffset) (uint64 size)] :: more /\
      drains more.
Proof.
  intros Hsize Hsrc log1 read Hparse size.
  destruct (estargz_footer_loop_log (tag_from (length (requests log)) 0 outs)
              (make_bytes 51) None log1) as (added & Hlog & Hq).
  fold read in Hlog. exists added. split; [exact Hlog|]. split; [exact Hq|].
  unfold readEstargzChunkedManifest. cbv zeta.
  destruct (Z.leb_spec blobSize 51); [lia|].
  unfold getBlobAt, GetBlobAt.
  rewrite (uint64_small (blobSize - 51)), (uint64_small 51) by lia.
  rewrite Hsrc. fold log1. fold read.
  destruct read as [[footer1 e1] log2]. simpl in Hparse, Hlog |- *.
  change (16 + 22 - 6)%nat with 32%nat. rewrite Hparse. fold size.
  destruct (size >? maxTocSize); [reflexivity|].
  destruct (src (length (requests log2)) _) as [e|outs2];
    [exists []; split; [reflexivity | apply drains_nil]|].
  match goal with |- context [estargz_manifest_loop E ?c ?m ?e ?l] =>
    destruct (estargz_manifest_loop_log E c m e l) as (a2 & H2 & Hq2);
    destruct (estargz_manifest_loop E c m e l) as [[m2 e2] log4]
  end.
  simpl in H2. subst log4. exists a2. split; [|exact Hq2].
  rewrite <- app_assoc.
  destruct m2 as [m|]; [|reflexivity].
  destruct (digest_Validate E _); [reflexivity|].
  destruct (negb _); reflexivity.
Qed.

End Estargz.

(** C8: when the ToC offset parsed from the footer is at least [blobSize-51],
    the derived manifest size [blobSize-51-tocOffset] is zero or negative; the
    manifest-too-big test lets it pass, and the reader goes on to request the
    range that starts at the ToC offset with, as its length, that size
    converted to uint64 (0, or 2^64 minus its magnitude). *)
Theorem C8_nonpositive_size_is_fetched (E : Env) (src : Source) (blobSize : Z)
    (annotations : gmap string string) (log : Log)
    (outs : list (res Reader)) (tocOffset : Z) :
  51 < blobSize < 2 ^ 63 ->
  src (length (requests log)) [mkChunk (blobSize - 51) 51] = Delivers outs ->
  strconv_ParseInt16 E
    (slice 16 32
       (fst (fst (estargz_footer_loop (tag_from (length (requests log)) 0 outs)
                    (make_bytes 51) None
                    (log ++ [EvGetBlobAt [mkChunk (blobSize - 51) 51]])))))
    = Ok tocOffset ->
  blobSize - 51 <= tocOffset < 2 ^ 63 ->
  let size := blobSize - 51 - tocOffset in
  size <= 0 /\
  (size >? maxTocSize) = false /\
  uint64 size = (if size =? 0 then 0 else 2 ^ 64 + size) /\
  requests (snd (readEstargzChunkedManifest E src blobSize annotations log))
    = requests log ++ [[mkChunk (blobSize - 51) 51];
                       [mkChunk tocOffset (uint64 size)]].
Proof.
  intros Hsize Hsrc Hparse Hoff size.
  assert (Hs : - 2 ^ 63 < size <= 0) by (unfold size; lia).
  assert (Hmax : (size >? maxTocSize) = false).
  { change maxTocSize with 52428800.
    destruct (Z.gtb_spec size 52428800); [lia | reflexivity]. }
  split; [lia|]. split; [exact Hmax|]. split.
  { unfold uint64. destruct (Z.eqb_spec size 0) as [->|Hne]; [reflexivity|].
    replace size with ((2 ^ 64 + size) + (-1) * 2 ^ 64) at 1 by lia.
    rewrite Z.mod_add by lia. apply Z.mod_small. lia. }
  destruct (readEstargz_after_footer E src blobSize annotations log outs tocOffset
              Hsize Hsrc Hparse) as (added & Hlog & [[Hq _] _] & Hrun).
  rewrite (int64_small (blobSize - 51 - tocOffset)) in Hrun by lia.
  fold size in Hrun. rewrite Hmax in Hrun.
  destruct Hrun as (more & -> & [Hm _]).
  rewrite Hlog, (uint64_small tocOffset) by lia.
  rewrite !requests_app, Hq, app_nil_r.
  change (requests (EvGetBlobAt ?c :: more)) with (c :: requests more).
  rewrite Hm, <- app_assoc. reflexivity.
Qed.

Lemma C8_witness :
  100 - 51 - 1000 <= 0 /\
  (100 - 51 - 1000 >? maxTocSize) = false /\
  uint64 (100 - 51 - 1000) = 2 ^ 64 + (100 - 51 - 1000) /\
  requests (snd (readEstargzChunkedManifest Mock.env Mock.src_toc_beyond_end 100 ∅ []))
    = [[mkChunk 49 51]; [mkChunk 1000 (uint64 (100 - 51 - 1000))]].
Proof.
  refine (C8_nonpositive_size_is_fetched Mock.env Mock.src_toc_beyond_end 100 ∅ []
            [Ok (mkReader (Mock.estargz_footer "00000000000003e8") None)] 1000
            _ _ _ _).
  - lia.
  - reflexivity.
  - vm_compute. reflexivity.
  - lia.
Defined.

(** ** The size ceiling *)

Section Ceiling.

Variable E : Env.

(** Locating the manifest adds at most the footer request to the log; it
    starts no decompressor and closes no stream. *)
Lemma locate_log (src : Source) (blobSize : Z) (annotations : gmap string string)
    (log : Log) :
  exists added,
    snd (locate E src blobSize annotations log) = log ++ added /\
    decompressions added = [] /\ closed added = [] /\
    (requests added = [] \/ requests added = [[footerChunk blobSize]]).
Proof.
  unfold locate.
  destruct (negb _).
  { exists []. rewrite app_nil_r. auto. }
  unfold locate_footer, GetBlobAt.
  destruct (src _ _) as [e|[|[r|e] outs]]; simpl.
  - eexists. split; [reflexivity|]. auto.
  - destruct (select_closed_takes_errs E); simpl; eexists; (split; [reflexivity|]); auto.
  - rewrite <- app_assoc. eexists. split; [reflexivity|]. auto.
  - eexists. split; [reflexivity|]. auto.
Qed.

Lemma fetch_and_validate_too_big (src : Source) (checksum : string)
    (loc : ManifestLocation) (log : Log) :
  loc_manifestType loc = ManifestTypeCRFS ->
  loc_length loc > maxTocSize \/ loc_lengthUncompressed loc > maxTocSize ->
  fetch_and_validate E src checksum loc log = (fails ErrManifestTooBig, log).
Proof.
  intros Ht Hbig. unfold fetch_and_validate.
  rewrite Ht, Z.eqb_refl. simpl negb. cbv iota.
  destruct (Z.gtb_spec (loc_length loc) maxTocSize); [reflexivity|].
  destruct (Z.gtb_spec (loc_lengthUncompressed loc) maxTocSize); [reflexivity|].
  lia.
Qed.

(** The entry size of the gzip-family manifest is looked at inside the loop
    over the delivered streams, on a stream already handed to gzip. *)
Lemma estargz_entry_too_big (s : Stream) (rest : list streamOrErr)
    (m : option bytes) (err : option error) (log : Log)
    (r aTar : Reader) (size : Z) :
  pgzip_NewReader E (stream_reader s) = Ok r ->
  archivetar_Next E r = Ok (size, aTar) ->
  size > maxTocSize ->
  estargz_manifest_loop E (SoeStream s :: rest) m err log =
  estargz_manifest_loop E rest m
    (match err with None => Some ErrManifestTooBig | _ => err end)
    (log ++ [EvRecv (stream_id s); EvDecompress (r_data (stream_reader s));
             EvClose (stream_id s)]).
Proof.
  intros Hgz Htar Hbig. simpl. unfold estargz_read_entry.
  rewrite Hgz, Htar.
  destruct (Z.gtb_spec size maxTocSize); [reflexivity | lia].
Qed.

End Ceiling.

(** C3, as stated, fails: in the gzip-family format an archive entry declared
    one byte above 50 MiB is found only after the manifest range has been
    requested and handed to gzip. *)
Lemma C3_counterexample :
  archivetar_Next Mock.env Mock.huge_entry = Ok (52428801, mkReader [] None) /\
  52428801 > maxTocSize /\
  requests (snd (readEstargzChunkedManifest Mock.env Mock.src_huge_entry 100 ∅ []))
    = [[mkChunk 49 51]; [mkChunk 20 29]] /\
  decompressions (snd (readEstargzChunkedManifest Mock.env Mock.src_huge_entry 100 ∅ []))
    = [Mock.le_bytes 8 52428801] /\
  fst (readEstargzChunkedManifest Mock.env Mock.src_huge_entry 100 ∅ [])
    = (None, 0, Some ErrManifestNotFound) /\
  fst (readEstargzChunkedManifest Mock.env Mock.src_huge_entry 100 ∅ [])
    <> (None, 0, Some ErrManifestTooBig).
Proof.
  split; [reflexivity|]. split; [reflexivity|].
  split; [vm_compute; reflexivity|]. split; [vm_compute; reflexivity|].
  split; [vm_compute; reflexivity|].
  vm_compute. discriminate.
Qed.

(** C3, amended: in the native format, once the manifest has been located with
    the recognized type tag, a declared compressed or uncompressed length
    above 50 MiB makes the read fail with the manifest-too-big error, with no
    decompression and no request beyond that of the footer. In the gzip-family
    format the same holds for the compressed size derived from the footer,
    [blobSize-51-tocOffset]. The uncompressed size of the gzip-family manifest
    is read from the archive header, on a stream of the manifest request that
    has been received and handed to gzip. *)
Theorem C3_size_ceiling (E : Env) (src : Source) (blobSize : Z)
    (annotations : gmap string string) (log : Log) :
  (forall (loc : ManifestLocation) (log1 : Log),
     56 < blobSize ->
     annotation annotations (ManifestChecksumKey E) <> EmptyString ->
     locate E src blobSize annotations log = (LocOk loc, log1) ->
     loc_manifestType loc = ManifestTypeCRFS ->
     loc_length loc > maxTocSize \/ loc_lengthUncompressed loc > maxTocSize ->
     readZstdChunkedManifest E src blobSize annotations log
       = (fails ErrManifestTooBig, log1) /\
     decompressions log1 = decompressions log /\
     (requests log1 = requests log \/
      requests log1 = requests log ++ [[footerChunk blobSize]])) /\
  (forall (outs : list (res Reader)) (tocOffset : Z),
     51 < blobSize < 2 ^ 63 ->
     src (length (requests log)) [mkChunk (blobSize - 51) 51] = Delivers outs ->
     strconv_ParseInt16 E
       (slice 16 32
          (fst (fst (estargz_footer_loop (tag_from (length (requests log)) 0 outs)
                       (make_bytes 51) None
                       (log ++ [EvGetBlobAt [mkChunk (blobSize - 51) 51]])))))
       = Ok tocOffset ->
     int64 (blobSize - 51 - tocOffset) > maxTocSize ->
     fst (readEstargzChunkedManifest E src blobSize annotations log)
       = (None, 0, Some ErrManifestTooBig) /\
     decompressions (snd (readEstargzChunkedManifest E src blobSize annotations log))
       = decompressions log /\
     requests (snd (readEstargzChunkedManifest E src blobSize annotations log))
       = requests log ++ [[mkChunk (blobSize - 51) 51]]) /\
  (forall (s : Stream) (rest : list streamOrErr) (m : option bytes)
          (lg : Log) (r aTar : Reader) (size : Z),
     pgzip_NewReader E (stream_reader s) = Ok r ->
     archivetar_Next E r = Ok (size, aTar) ->
     size > maxTocSize ->
     estargz_manifest_loop E (SoeStream s :: rest) m None lg =
     estargz_manifest_loop E rest m (Some ErrManifestTooBig)
       (lg ++ [EvRecv (stream_id s); EvDecompress (r_data (stream_reader s));
               EvClose (stream_id s)])).
Proof.
  split; [|split].
  - intros loc log1 Hsize Hsum Hloc Htype Hbig.
    destruct (locate_log E src blobSize annotations log)
      as (added & Hlog & Hd & _ & Hr).
    rewrite Hloc in Hlog. simpl in Hlog. subst log1.
    split; [|split].
    + unfold readZstdChunkedManifest, FooterSizeSupported.
      destruct (Z.leb_spec blobSize 56); [lia|].
      apply String_eqb_false in Hsum. rewrite Hsum, Hloc.
      now apply fetch_and_validate_too_big.
    + now rewrite decompressions_app, Hd, app_nil_r.
    + rewrite requests_app. destruct Hr as [-> | ->]; [left | right]; auto.
      now rewrite app_nil_r.
  - intros outs tocOffset Hsize Hsrc Hparse Hbig.
    destruct (readEstargz_after_footer E src blobSize annotations log outs tocOffset
                Hsize Hsrc Hparse) as (added & Hlog & [[Hq _] Hdec] & Hrun).
    destruct (Z.gtb_spec (int64 (blobSize - 51 - tocOffset)) maxTocSize); [|lia].
    rewrite Hrun, Hlog. simpl fst. simpl snd.
    rewrite !decompressions_app, !requests_app, Hdec, Hq, !app_nil_r.
    auto.
  - intros s rest m lg r aTar size Hgz Htar Hbig.
    now apply (estargz_entry_too_big E s rest m None lg r aTar size).
Qed.

Lemma C3_witness :
  (readZstdChunkedManifest Mock.env (Mock.always []) 100 Mock.ann_too_big []
     = (fails ErrManifestTooBig, []) /\
   decompressions [] = decompressions [] /\
   (requests [] = requests [] \/
    requests [] = requests [] ++ [[footerChunk 100]])) /\
  (fst (readEstargzChunkedManifest Mock.env Mock.src_huge_toc 1073741824 ∅ [])
     = (None, 0, Some ErrManifestTooBig) /\
   decompressions (snd (readEstargzChunkedManifest Mock.env Mock.src_huge_toc
                          1073741824 ∅ []))
     = decompressions [] /\
   requests (snd (readEstargzChunkedManifest Mock.env Mock.src_huge_toc
                    1073741824 ∅ []))
     = requests [] ++ [[mkChunk (1073741824 - 51) 51]]).
Proof.
  split.
  - refine (proj1 (C3_size_ceiling Mock.env (Mock.always []) 100 Mock.ann_too_big [])
              (mkLocation 10 52428801 5 1 0 0 0 EmptyString) [] _ _ _ _ _).
    + lia.
    + vm_compute. discriminate.
    + vm_compute. reflexivity.
    + reflexivity.
    + left. reflexivity.
  - refine (proj1 (proj2 (C3_size_ceiling Mock.env Mock.src_huge_toc 1073741824 ∅ []))
              [Ok (mkReader (Mock.estargz_footer "0000000000000000") None)] 0
              _ _ _ _).
    + lia.
    + reflexivity.
    + vm_compute. reflexivity.
    + reflexivity.
Defined.

(** ** Streams received and streams closed *)

Section Draining.

Variable E : Env.

(** From the request at line 244 on, every stream received is closed, and at
    most that one request is made. *)
Lemma fetch_and_validate_log (src : Source) (checksum : string)
    (loc : ManifestLocation) (log : Log) :
  exists added,
    snd (fetch_and_validate E src checksum loc log) = log ++ added /\
    received added = closed added /\
    (requests added = [] \/ requests added = [manifestChunks loc]).
Proof.
  unfold fetch_and_validate.
  destruct (negb _); [exists []; rewrite app_nil_r; auto|].
  destruct (_ >? _); [exists []; rewrite app_nil_r; auto|].
  destruct (_ >? _); [exists []; rewrite app_nil_r; auto|].
  unfold getBlobAt, GetBlobAt.
  destruct (src _ _) as [e|outs]; [eexists; split; [reflexivity|]; auto|].
  match goal with |- context [read_and_validate E ?c ?l ?ch ?lg] =>
    destruct (read_and_validate_log E c l ch lg) as (a1 & H1 & Hr1 & Hc1);
    destruct (read_and_validate E c l ch lg) as [[[[[m t] o] retErr] rest] log2]
  end.
  simpl in H1. subst log2.
  match goal with |- context [ensureAllBlobsDone ?ch ?e ?lg] =>
    destruct (ensureAllBlobsDone_log ch e lg) as (a2 & H2 & [[Hr2 Hc2] _]);
    destruct (ensureAllBlobsDone ch e lg) as [err log3]
  end.
  simpl in H2. subst log3. simpl snd.
  rewrite <- !app_assoc. eexists. split; [reflexivity|].
  split; split_log.
  - simpl. congruence.
  - right. rewrite Hr1, Hr2. reflexivity.
Qed.

(** The gzip-family reader closes every stream it receives. *)
Lemma readEstargz_closes_every_stream (src : Source) (blobSize : Z)
    (annotations : gmap string string) (log : Log) :
  exists added,
    snd (readEstargzChunkedManifest E src blobSize annotations log) = log ++ added /\
    received added = closed added.
Proof.
  unfold readEstargzChunkedManifest. cbv zeta.
  destruct (blobSize <=? 51); [exists []; rewrite app_nil_r; auto|].
  unfold getBlobAt, GetBlobAt.
  destruct (src _ _) as [e|outs]; [eexists; split; [reflexivity|]; auto|].
  match goal with |- context [estargz_footer_loop ?c ?f ?e ?l] =>
    destruct (estargz_footer_loop_log c f e l) as (a1 & H1 & [[_ Hc1] _]);
    destruct (estargz_footer_loop c f e l) as [[footer1 e1] log2]
  end.
  simpl in H1. subst log2.
  destruct (strconv_ParseInt16 E _) as [tocOffset|e];
    [|simpl; rewrite <- app_assoc; eexists; split; [reflexivity|]; exact Hc1].
  destruct (_ >? _);
    [simpl; rewrite <- app_assoc; eexists; split; [reflexivity|]; exact Hc1|].
  destruct (src _ _) as [e|outs2].
  { simpl. rewrite <- !app_assoc. eexists. split; [reflexivity|].
    split_log. simpl. congruence. }
  match goal with |- context [estargz_manifest_loop E ?c ?m ?e ?l] =>
    destruct (estargz_manifest_loop_log E c m e l) as (a2 & H2 & [_ Hc2]);
    destruct (estargz_manifest_loop E c m e l) as [[m2 e2] log4]
  end.
  simpl in H2. subst log4.
  assert (Hgoal : exists added,
    ((log ++ [EvGetBlobAt [mkChunk (uint64 (blobSize - 51)) (uint64 51)]]) ++ a1)
      ++ [EvGetBlobAt [mkChunk (uint64 tocOffset)
                         (uint64 (int64 (blobSize - 51 - tocOffset)))]] ++ a2
    = log ++ added /\ received added = closed added).
  { rewrite <- !app_assoc. eexists. split; [reflexivity|].
    split_log. simpl. congruence. }
  rewrite <- (app_assoc _ [_] a2).
  destruct m2 as [m|]; [|exact Hgoal].
  destruct (digest_Validate E _); [exact Hgoal|].
  destruct (negb _); exact Hgoal.
Qed.

(** With the metadata annotation, the native reader closes every stream it
    receives. *)
Lemma readZstd_annotated_closes_every_stream (src : Source) (blobSize : Z)
    (annotations : gmap string string) (log : Log) :
  annotation annotations (ManifestInfoKey E) <> EmptyString ->
  exists added,
    snd (readZstdChunkedManifest E src blobSize annotations log) = log ++ added /\
    received added = closed added.
Proof.
  intros Hinfo. apply String_eqb_false in Hinfo.
  unfold readZstdChunkedManifest. cbv zeta.
  destruct (blobSize <=? FooterSizeSupported); [exists []; rewrite app_nil_r; auto|].
  destruct (String.eqb (annotation annotations (ManifestChecksumKey E)) EmptyString);
    [exists []; rewrite app_nil_r; auto|].
  unfold locate. rewrite Hinfo. simpl negb. cbv iota.
  destruct (locate_annotations E _ annotations) as [loc|r];
    [|exists []; rewrite app_nil_r; auto].
  destruct (fetch_and_validate_log src
              (annotation annotations (ManifestChecksumKey E)) loc log)
    as (added & H & Hrc & _).
  eauto.
Qed.

(** Without it, the stream of the footer request is received and, on every
    path, left open: one stream more is received than is closed. *)
Lemma readZstd_footer_stream_left_open (src : Source) (blobSize : Z)
    (annotations : gmap string string) (log : Log)
    (r : Reader) (outs : list (res Reader)) :
  56 < blobSize ->
  annotation annotations (ManifestChecksumKey E) <> EmptyString ->
  annotation annotations (ManifestInfoKey E) = EmptyString ->
  src (length (requests log)) [footerChunk blobSize] = Delivers (Ok r :: outs) ->
  exists added,
    snd (readZstdChunkedManifest E src blobSize annotations log)
      = log ++ EvGetBlobAt [footerChunk blobSize]
            :: EvRecv (length (requests log), 0%nat) :: added /\
    received added = closed added.
Proof.
  intros Hsize Hsum Hinfo Hsrc.
  unfold readZstdChunkedManifest, FooterSizeSupported.
  destruct (Z.leb_spec blobSize 56); [lia|].
  apply String_eqb_false in Hsum. rewrite Hsum.
  unfold locate. rewrite Hinfo. simpl negb. cbv iota.
  unfold locate_footer, GetBlobAt. rewrite Hsrc. simpl tag_from. cbv iota beta.
  destruct (parse_footer E _) as [loc|res].
  - match goal with |- context [fetch_and_validate E src ?c loc ?lg] =>
      destruct (fetch_and_validate_log src c loc lg) as (added & -> & Hrc & _)
    end.
    exists added. rewrite <- !app_assoc. auto.
  - exists []. simpl. rewrite <- app_assoc. auto.
Qed.

End Draining.

(** C2 fails on the code. A blob of 100 bytes is read without metadata
    annotation: the stream of the footer request, [(0, 0)], is received and
    the call returns the manifest with a nil error, but only the stream of
    the manifest request, [(1, 0)], has been closed. *)
Theorem C2_footer_stream_not_closed :
  readZstdChunkedManifest Mock.env Mock.src_footer 100 Mock.ann_checksum []
    = (Returned (Some (Mock.b "hello"), Some [], 10, None),
       [EvGetBlobAt [mkChunk 44 56];
        EvRecv (0%nat, 0%nat);
        EvGetBlobAt [mkChunk 10 6];
        EvRecv (1%nat, 0%nat); EvClose (1%nat, 0%nat);
        EvDecompress (Mock.b "Zhello")]) /\
  In (0%nat, 0%nat)
    (received (snd (readZstdChunkedManifest Mock.env Mock.src_footer 100
                      Mock.ann_checksum []))) /\
  ~ In (0%nat, 0%nat)
    (closed (snd (readZstdChunkedManifest Mock.env Mock.src_footer 100
                    Mock.ann_checksum []))).
Proof.
  split; [vm_compute; reflexivity|].
  split.
  - vm_compute. auto.
  - vm_compute. intros [H|[]]. discriminate.
Qed.

(** ** The metadata annotation *)

Section Annotated.

Variable E : Env.

(** The run from line 217 on asks the source one question only. *)
Lemma fetch_and_validate_same_answer (src src' : Source) (checksum : string)
    (loc : ManifestLocation) (log : Log) :
  src' (length (requests log)) (manifestChunks loc)
    = src (length (requests log)) (manifestChunks loc) ->
  fetch_and_validate E src' checksum loc log
    = fetch_and_validate E src checksum loc log.
Proof.
  intros H. unfold fetch_and_validate, getBlobAt, GetBlobAt. now rewrite H.
Qed.

(** With a non-empty metadata annotation the location is computed from the
    annotations alone. *)
Lemma locate_annotated (src : Source) (blobSize : Z)
    (annotations : gmap string string) (log : Log) :
  annotation annotations (ManifestInfoKey E) <> EmptyString ->
  locate E src blobSize annotations log
    = (locate_annotations E (annotation annotations (ManifestInfoKey E)) annotations,
       log).
Proof.
  intros H. apply String_eqb_false in H. unfold locate. now rewrite H.
Qed.

Lemma locate_annotations_fields (v : string) (annotations : gmap string string)
    (loc : ManifestLocation) (o l u t : Z) :
  Sscanf4 E v = Ok (o, l, u, t) ->
  locate_annotations E v annotations = LocOk loc ->
  loc_offset loc = o /\ loc_length loc = l /\
  loc_lengthUncompressed loc = u /\ loc_manifestType loc = t.
Proof.
  intros Hscan. unfold locate_annotations. rewrite Hscan.
  destruct (annotations !! TarSplitInfoKey E) as [w|].
  - destruct (Sscanf3 E w) as [[[ot lt] lut]|e]; [|discriminate].
    intros [= <-]. auto.
  - intros [= <-]. auto.
Qed.

Lemma readZstd_annotated (src : Source) (blobSize : Z)
    (annotations : gmap string string) (log : Log) :
  annotation annotations (ManifestInfoKey E) <> EmptyString ->
  readZstdChunkedManifest E src blobSize annotations log =
    if blobSize <=? 56 then (fails ErrBlobTooSmall, log)
    else if String.eqb (annotation annotations (ManifestChecksumKey E)) EmptyString
    then (fails ErrChecksumAnnotationNotFound, log)
    else
      match locate_annotations E (annotation annotations (ManifestInfoKey E))
              annotations with
      | LocReturn r => (r, log)
      | LocOk loc =>
          fetch_and_validate E src (annotation annotations (ManifestChecksumKey E))
            loc log
      end.
Proof.
  intros H. unfold readZstdChunkedManifest. cbv zeta.
  rewrite (locate_annotated src blobSize annotations log H).
  reflexivity.
Qed.

End Annotated.

(** ** The companion stream *)

Section Companion.

Variable E : Env.

Lemma io_ReadFull_None (r : Reader) (buf blob : bytes) :
  io_ReadFull r buf = (blob, None) -> blob = take (length buf) (r_data r).
Proof.
  unfold io_ReadFull. destruct (_ <=? _)%nat.
  - now intros [= <-].
  - discriminate.
Qed.

(** A successful [readBlob] took a stream from the head of the channel and
    returns the first [len] bytes it delivered. *)
Lemma readBlob_Ok (chan rest : list streamOrErr) (len : Z) (log log' : Log)
    (blob : bytes) :
  readBlob chan len log = (Ok blob, rest, log') ->
  exists s, chan = SoeStream s :: rest /\
            blob = take (Z.to_nat len) (r_data (stream_reader s)).
Proof.
  destruct chan as [|[s|e] chan]; simpl; try discriminate.
  destruct (io_ReadFull _ _) as [blob' [e|]] eqn:Hread; [discriminate|].
  intros [= <- <- <-]. exists s. split; [reflexivity|].
  apply io_ReadFull_None in Hread. now rewrite length_make_bytes in Hread.
Qed.

(** Without a companion offset the second result is nil or empty. *)
Lemma read_and_validate_no_companion (checksum : string) (loc : ManifestLocation)
    (chan : list streamOrErr) (log : Log) :
  loc_offsetTarSplit loc = 0 ->
  let t := snd (fst (fst (fst (fst (read_and_validate E checksum loc chan log))))) in
  t = None \/ t = Some [].
Proof.
  intros H0. unfold read_and_validate. rewrite H0. simpl (0 >? 0). cbv iota.
  destruct (readBlob chan _ log) as [[[manifest|e] rest] log1]; [|simpl; auto].
  destruct (decodeAndValidateBlob E manifest _ checksum log1) as [[d|e] log2];
    simpl; auto.
Qed.

(** With one, a run that ends without error has validated the bytes of the
    second stream against the companion's own checksum. *)
Lemma read_and_validate_companion (checksum : string) (loc : ManifestLocation)
    (chan rest : list streamOrErr) (log log' : Log)
    (m t : option bytes) (o : Z) :
  loc_offsetTarSplit loc > 0 ->
  read_and_validate E checksum loc chan log = ((m, t, o, None), rest, log') ->
  exists s1 s2 decoded,
    chan = SoeStream s1 :: SoeStream s2 :: rest /\
    t = Some decoded /\
    let tarSplit := take (Z.to_nat (loc_lengthTarSplit loc)) (r_data (stream_reader s2)) in
    let cs := loc_tarSplitChecksumAnnotation loc in
    digest_Validate E cs = None /\
    digest_FromBytes E cs tarSplit = cs /\
    zstd_DecodeAll E tarSplit (loc_lengthUncompressedTarSplit loc) = Ok decoded.
Proof.
  intros Hpos. unfold read_and_validate.
  destruct (Z.gtb_spec (loc_offsetTarSplit loc) 0); [|lia].
  destruct (readBlob chan _ log) as [[[manifest|e] rest1] log1] eqn:Hb1;
    [|discriminate].
  apply readBlob_Ok in Hb1. destruct Hb1 as (s1 & -> & _).
  destruct (decodeAndValidateBlob E manifest _ checksum log1) as [[d|e] log2];
    [|discriminate].
  destruct (readBlob rest1 _ log2) as [[[tarSplit|e] rest2] log3] eqn:Hb2;
    [|discriminate].
  apply readBlob_Ok in Hb2. destruct Hb2 as (s2 & -> & ->).
  destruct (decodeAndValidateBlob E _ _ _ log3) as [[decoded|e] log4] eqn:Hd;
    [|discriminate].
  intros [= <- <- <- <- <-].
  exists s1, s2, decoded. split; [reflexivity|]. split; [reflexivity|].
  apply (f_equal fst) in Hd. simpl in Hd.
  apply decodeAndValidateBlob_Ok in Hd. destruct Hd as (Hv & Hf & _ & Hz). auto.
Qed.

Lemma tag_from_two_streams (n i : nat) (outs : list (res Reader))
    (s1 s2 : Stream) (rest : list streamOrErr) :
  tag_from n i outs = SoeStream s1 :: SoeStream s2 :: rest ->
  exists outs', outs = Ok (stream_reader s1) :: Ok (stream_reader s2) :: outs'.
Proof.
  destruct outs as [|[r1|e1] [|[r2|e2] outs']]; simpl; try discriminate.
  intros [= <- <- _]. eauto.
Qed.

(** The companion offset is non-zero only when it was scanned from the
    companion annotation, next to the metadata annotation. *)
Lemma locate_companion (src : Source) (blobSize : Z)
    (annotations : gmap string string) (log log1 : Log) (loc : ManifestLocation) :
  locate E src blobSize annotations log = (LocOk loc, log1) ->
  loc_offsetTarSplit loc <> 0 ->
  log1 = log /\
  is_Some (annotations !! TarSplitInfoKey E) /\
  loc_tarSplitChecksumAnnotation loc = annotation annotations (TarSplitChecksumKey E).
Proof.
  unfold locate. destruct (negb _).
  - unfold locate_annotations.
    destruct (Sscanf4 E _) as [[[[o l] u] t]|e]; [|discriminate].
    destruct (annotations !! TarSplitInfoKey E) as [w|].
    + destruct (Sscanf3 E w) as [[[ot lt] lut]|e]; [|discriminate].
      intros [= <- <-] _. eauto.
    + intros [= <- <-]. simpl. congruence.
  - unfold locate_footer.
    destruct (GetBlobAt src _ log) as [[[|[reader|e] chan]|e] lg]; try discriminate.
    + destruct (select_closed_takes_errs E); discriminate.
    + unfold parse_footer.
      destruct (io_ReadFull _ _) as [footer [e|]]; [discriminate|].
      destruct (negb _); [discriminate|].
      intros [= <- <-]. simpl. congruence.
Qed.

End Companion.

Section CompanionRun.

Variable E : Env.

(** A result that [locate] returns instead of a location carries no bytes. *)
Lemma locate_return (src : Source) (blobSize : Z)
    (annotations : gmap string string) (log log1 : Log) (r : ZstdResult) :
  locate E src blobSize annotations log = (LocReturn r, log1) ->
  r = Panicked \/ exists e, r = Returned (None, None, 0, e).
Proof.
  unfold locate. destruct (negb _).
  - unfold locate_annotations.
    destruct (Sscanf4 E _) as [[[[o l] u] t]|e]; [|intros [= <- _]; right; eexists; reflexivity].
    destruct (annotations !! TarSplitInfoKey E) as [w|]; [|discriminate].
    destruct (Sscanf3 E w) as [[[ot lt] lut]|e]; [discriminate|].
    intros [= <- _]. right. eexists. reflexivity.
  - unfold locate_footer.
    destruct (GetBlobAt src _ log) as [[[|[reader|e] chan]|e] lg].
    + destruct (select_closed_takes_errs E); intros [= <- _]; eauto.
    + unfold parse_footer.
      destruct (io_ReadFull _ _) as [footer [e|]];
        [intros [= <- _]; right; eexists; reflexivity|].
      destruct (negb _); [|discriminate].
      intros [= <- _]. right. eexists. reflexivity.
    + intros [= <- _]. right. eexists. reflexivity.
    + intros [= <- _]. right. eexists. reflexivity.
Qed.

Lemma fetch_and_validate_no_companion (src : Source) (checksum : string)
    (loc : ManifestLocation) (log : Log) (m t : option bytes) (o : Z)
    (e : option error) :
  loc_offsetTarSplit loc = 0 ->
  fst (fetch_and_validate E src checksum loc log) = Returned (m, t, o, e) ->
  t = None \/ t = Some [].
Proof.
  intros H0. unfold fetch_and_validate.
  destruct (negb _); [intros [= _ <- _ _]; auto|].
  destruct (_ >? _); [intros [= _ <- _ _]; auto|].
  destruct (_ >? _); [intros [= _ <- _ _]; auto|].
  destruct (getBlobAt src _ log) as [[chan|e1] log1]; [|intros [= _ <- _ _]; auto].
  pose proof (read_and_validate_no_companion E checksum loc chan log1 H0) as Ht.
  destruct (read_and_validate E checksum loc chan log1)
    as [[[[[m' t'] o'] retErr] rest] log2].
  destruct (ensureAllBlobsDone rest None log2) as [err log3].
  simpl in Ht |- *. intros [= _ <- _ _]. exact Ht.
Qed.


Lemma manifestChunks_batch (loc : ManifestLocation) :
  loc_offsetTarSplit loc > 0 ->
  manifestChunks loc = [mkChunk (loc_offset loc) (loc_length loc);
                        mkChunk (loc_offsetTarSplit loc) (loc_lengthTarSplit loc)].
Proof.
  intros H. unfold manifestChunks.
  destruct (Z.gtb_spec (loc_offsetTarSplit loc) 0); [reflexivity | lia].
Qed.

(** The run of the native reader as a function of what [locate] gives. *)
Lemma readZstd_located (src : Source) (blobSize : Z)
    (annotations : gmap string string) (log : Log) :
  readZstdChunkedManifest E src blobSize annotations log =
    if blobSize <=? 56 then (fails ErrBlobTooSmall, log)
    else if String.eqb (annotation annotations (ManifestChecksumKey E)) EmptyString
    then (fails ErrChecksumAnnotationNotFound, log)
    else
      match locate E src blobSize annotations log with
      | (LocReturn r, log1) => (r, log1)
      | (LocOk loc, log1) =>
          fetch_and_validate E src (annotation annotations (ManifestChecksumKey E))
            loc log1
      end.
Proof. reflexivity. Qed.

End CompanionRun.

(** * Further properties of the code *)

(** ** The table of entry types *)

Lemma typesToTar_names (T : TypeTable) :
  (typesToTar_entries T).*1
    = [TypeReg T; TypeLink T; TypeChar T; TypeBlock T; TypeDir T; TypeFifo T;
       TypeSymlink T].
Proof. reflexivity. Qed.

Lemma typesToTar_codes (T : TypeTable) :
  (typesToTar_entries T).*2
    = [tar_TypeReg T; tar_TypeLink T; tar_TypeChar T; tar_TypeBlock T;
       tar_TypeDir T; tar_TypeFifo T; tar_TypeSymlink T].
Proof. reflexivity. Qed.

Lemma typeToTarType_entry (T : TypeTable) (t : string) (r : byte) :
  NoDup ((typesToTar_entries T).*1) ->
  (t, r) ∈ typesToTar_entries T -> typeToTarType T t = inr r.
Proof.
  intros Hnd Hin. unfold typeToTarType, typesToTar.
  now rewrite (elem_of_list_to_map_1 _ t r Hnd Hin).
Qed.

Lemma typeToTarType_inr (T : TypeTable) (t : string) (r : byte) :
  typeToTarType T t = inr r -> (t, r) ∈ typesToTar_entries T.
Proof.
  unfold typeToTarType, typesToTar.
  destruct (list_to_map (typesToTar_entries T) !! t) as [r'|] eqn:H; [|discriminate].
  intros [= <-]. now apply elem_of_list_to_map_2 in H.
Qed.

(** X1: with the seven type names distinct, [typeToTarType] maps each name to
    the tar type flag written next to it in [typesToTar], and answers any
    other string with the unknown-type error that names that string. *)
Theorem X1_typeToTarType_table (T : TypeTable) :
  NoDup [TypeReg T; TypeLink T; TypeChar T; TypeBlock T; TypeDir T; TypeFifo T;
         TypeSymlink T] ->
  typeToTarType T (TypeReg T) = inr (tar_TypeReg T) /\
  typeToTarType T (TypeLink T) = inr (tar_TypeLink T) /\
  typeToTarType T (TypeChar T) = inr (tar_TypeChar T) /\
  typeToTarType T (TypeBlock T) = inr (tar_TypeBlock T) /\
  typeToTarType T (TypeDir T) = inr (tar_TypeDir T) /\
  typeToTarType T (TypeFifo T) = inr (tar_TypeFifo T) /\
  typeToTarType T (TypeSymlink T) = inr (tar_TypeSymlink T) /\
  (forall t : string,
     t ∉ [TypeReg T; TypeLink T; TypeChar T; TypeBlock T; TypeDir T; TypeFifo T;
          TypeSymlink T] ->
     typeToTarType T t = inl (UnknownType t)).
Proof.
  intros Hnd. rewrite <- typesToTar_names in Hnd.
  repeat split;
    try (apply typeToTarType_entry; [exact Hnd | unfold typesToTar_entries; set_solver]).
  intros t Hnot. rewrite <- typesToTar_names in Hnot.
  unfold typeToTarType, typesToTar.
  now rewrite (not_elem_of_list_to_map_1 _ t Hnot).
Qed.

Lemma X1_witness :
  typeToTarType Mock.types "reg" = inr "0"%byte /\
  typeToTarType Mock.types "hardlink" = inr "1"%byte /\
  typeToTarType Mock.types "char" = inr "3"%byte /\
  typeToTarType Mock.types "block" = inr "4"%byte /\
  typeToTarType Mock.types "dir" = inr "5"%byte /\
  typeToTarType Mock.types "fifo" = inr "6"%byte /\
  typeToTarType Mock.types "symlink" = inr "2"%byte /\
  (forall t : string,
     t ∉ ["reg"; "hardlink"; "char"; "block"; "dir"; "fifo"; "symlink"]%string ->
     typeToTarType Mock.types t = inl (UnknownType t)).
Proof.
  apply (X1_typeToTarType_table Mock.types).
  apply (bool_decide_unpack _). vm_compute. exact I.
Defined.

(** X2: [typeToTarType] never maps two different type names to the same tar
    type flag, the names and the flags of the table being distinct; so the
    name of an entry can be recovered from its flag. *)
Theorem X2_typeToTarType_injective (T : TypeTable) (t1 t2 : string) (r : byte) :
  NoDup [tar_TypeReg T; tar_TypeLink T; tar_TypeChar T; tar_TypeBlock T;
         tar_TypeDir T; tar_TypeFifo T; tar_TypeSymlink T] ->
  typeToTarType T t1 = inr r ->
  typeToTarType T t2 = inr r ->
  t1 = t2.
Proof.
  intros Hnd H1 H2. rewrite <- typesToTar_codes in Hnd.
  apply typeToTarType_inr, list_elem_of_lookup in H1.
  apply typeToTarType_inr, list_elem_of_lookup in H2.
  destruct H1 as [i Hi], H2 as [j Hj].
  assert (i = j).
  { apply (NoDup_lookup _ i j r Hnd); rewrite list_lookup_fmap.
    - now rewrite Hi.
    - now rewrite Hj. }
  subst j. congruence.
Qed.

Lemma X2_witness :
  typeToTarType Mock.types "dir" = inr "5"%byte /\ "dir"%string = "dir"%string.
Proof.
  split; [reflexivity|].
  refine (X2_typeToTarType_injective Mock.types "dir" "dir" "5" _ eq_refl eq_refl).
  repeat (apply NoDup_cons_2;
          [rewrite ?elem_of_cons, elem_of_nil; simpl; intuition discriminate|]).
  apply NoDup_nil_2.
Defined.

(** ** The frame magic *)

(** X3: [isZstdChunkedFrameMagic] holds exactly of the byte strings of at
    least 8 bytes whose first 8 bytes are the magic; shorter input is never
    the magic and what follows the first 8 bytes is not looked at. *)
Theorem X3_isZstdChunkedFrameMagic_spec (E : Env) (data : bytes) :
  isZstdChunkedFrameMagic E data = true <->
  (8 <= length data)%nat /\ take 8 data = ZstdChunkedFrameMagic E.
Proof.
  unfold isZstdChunkedFrameMagic.
  destruct (Nat.ltb_spec (length data) 8).
  - split; [discriminate | intros [? _]; lia].
  - rewrite bytes_Equal_eq. split.
    + intros ->. auto.
    + intros [_ ->]. reflexivity.
Qed.

(** ** The native reader from the manifest request on *)

Section NativeRun.

Variable E : Env.

(** The run of a call that reaches the manifest request. *)
Lemma readZstd_reaches (src : Source) (blobSize : Z)
    (annotations : gmap string string) (log : Log)
    (loc : ManifestLocation) (log1 : Log) :
  reaches_fetch E src blobSize annotations log loc log1 ->
  readZstdChunkedManifest E src blobSize annotations log =
    let log2 := log1 ++ [EvGetBlobAt (manifestChunks loc)] in
    match src (length (requests log1)) (manifestChunks loc) with
    | SetupError e => (fails e, log2)
    | Delivers outs =>
        let '((m, t, o, retErr), rest, log3) :=
          read_and_validate E (annotation annotations (ManifestChecksumKey E)) loc
            (tag_from (length (requests log1)) 0 outs) log2 in
        let '(err, log4) := ensureAllBlobsDone rest None log3 in
        (Returned (m, t, o, match retErr with None => err | _ => retErr end), log4)
    end.
Proof.
  intros (Hsize & Hsum & Hloc & Htype & Hlen & Hlen').
  rewrite readZstd_located, Hloc.
  destruct (Z.leb_spec blobSize 56); [lia|].
  apply String_eqb_false in Hsum. rewrite Hsum.
  unfold fetch_and_validate. rewrite Htype, Z.eqb_refl. simpl negb. cbv iota.
  destruct (Z.gtb_spec (loc_length loc) maxTocSize); [lia|].
  destruct (Z.gtb_spec (loc_lengthUncompressed loc) maxTocSize); [lia|].
  unfold getBlobAt, GetBlobAt.
  destruct (src _ _); reflexivity.
Qed.

(** A call that asks the source for more than [locate] did has passed
    every test. *)
Lemma readZstd_request_reaches (src : Source) (blobSize : Z)
    (annotations : gmap string string) (log : Log)
    (loc : ManifestLocation) (log1 : Log) :
  locate E src blobSize annotations log = (LocOk loc, log1) ->
  (length (requests log1)
     < length (requests (snd (readZstdChunkedManifest E src blobSize annotations log))))%nat ->
  reaches_fetch E src blobSize annotations log loc log1.
Proof.
  intros Hloc. rewrite readZstd_located, Hloc.
  destruct (locate_log E src blobSize annotations log) as (added & Hlog & _).
  rewrite Hloc in Hlog. simpl in Hlog.
  assert (Hle : (length (requests log) <= length (requests log1))%nat).
  { subst log1. rewrite requests_app, length_app. lia. }
  unfold reaches_fetch.
  destruct (Z.leb_spec blobSize 56); [simpl; lia|].
  destruct (String.eqb _ EmptyString) eqn:Hsum; [simpl; lia|].
  apply String_eqb_false in Hsum.
  unfold fetch_and_validate.
  destruct (Z.eqb_spec (loc_manifestType loc) ManifestTypeCRFS); [|simpl; lia].
  simpl negb. cbv iota.
  destruct (Z.gtb_spec (loc_length loc) maxTocSize); [simpl; lia|].
  destruct (Z.gtb_spec (loc_lengthUncompressed loc) maxTocSize); [simpl; lia|].
  intros _. repeat split; auto.
Qed.

(** What the decoder is started on has been validated. *)
Lemma decodeAndValidateBlob_validated (blob : bytes) (len : Z) (cs : string)
    (log : Log) :
  exists added,
    snd (decodeAndValidateBlob E blob len cs log) = log ++ added /\
    Forall (validated E cs) (decompressions added).
Proof.
  unfold decodeAndValidateBlob, validated.
  destruct (digest_Validate E cs) as [e|] eqn:Hv;
    [exists []; rewrite app_nil_r; split; [reflexivity | constructor]|].
  destruct (String.eqb _ cs) eqn:Hd; simpl;
    [|exists []; rewrite app_nil_r; split; [reflexivity | constructor]].
  apply String_eqb_true in Hd.
  destruct (zstd_NewReader E);
    [exists []; rewrite app_nil_r; split; [reflexivity | constructor]|].
  eexists. split; [reflexivity|]. repeat constructor; assumption.
Qed.

Lemma read_and_validate_validated (cs : string) (loc : ManifestLocation)
    (chan : list streamOrErr) (log : Log) :
  exists added,
    snd (read_and_validate E cs loc chan log) = log ++ added /\
    Forall (fun blob => validated E cs blob \/
                        (loc_offsetTarSplit loc > 0 /\
                         validated E (loc_tarSplitChecksumAnnotation loc) blob))
      (decompressions added).
Proof.
  unfold read_and_validate.
  destruct (readBlob_log chan (loc_length loc) log) as (a1 & H1 & [_ Hd1]).
  destruct (readBlob chan (loc_length loc) log) as [[[manifest|e] rest] log1];
    simpl in H1; subst log1;
    [|simpl; exists a1; split; [reflexivity | rewrite Hd1; constructor]].
  destruct (decodeAndValidateBlob_validated manifest (loc_lengthUncompressed loc)
              cs (log ++ a1)) as (a2 & H2 & Hd2).
  assert (Hd12 : Forall (fun blob => validated E cs blob \/
                        (loc_offsetTarSplit loc > 0 /\
                         validated E (loc_tarSplitChecksumAnnotation loc) blob))
                   (decompressions (a1 ++ a2))).
  { rewrite decompressions_app, Hd1. simpl.
    eapply Forall_impl; [exact Hd2 | intros; auto]. }
  destruct (decodeAndValidateBlob E manifest _ cs (log ++ a1))
    as [[decodedBlob|e] log2]; simpl in H2; subst log2;
    [|simpl; exists (a1 ++ a2); rewrite app_assoc; auto].
  destruct (Z.gtb_spec (loc_offsetTarSplit loc) 0) as [Hpos|];
    [|simpl; exists (a1 ++ a2); rewrite app_assoc; auto].
  destruct (readBlob_log rest (loc_lengthTarSplit loc) ((log ++ a1) ++ a2))
    as (a3 & H3 & [_ Hd3]).
  assert (Hd123 : Forall (fun blob => validated E cs blob \/
                        (loc_offsetTarSplit loc > 0 /\
                         validated E (loc_tarSplitChecksumAnnotation loc) blob))
                   (decompressions ((a1 ++ a2) ++ a3))).
  { rewrite decompressions_app, Hd3, app_nil_r. exact Hd12. }
  destruct (readBlob rest _ _) as [[[tarSplit|e] rest'] log3];
    simpl in H3; subst log3;
    [|simpl; exists ((a1 ++ a2) ++ a3); rewrite !app_assoc; auto].
  match goal with |- context [decodeAndValidateBlob E tarSplit ?l ?c ?lg] =>
    destruct (decodeAndValidateBlob_validated tarSplit l c lg) as (a4 & H4 & Hd4);
    destruct (decodeAndValidateBlob E tarSplit l c lg) as [[decodedTarSplit|e] log4]
  end; simpl in H4; subst log4; simpl;
    (exists (((a1 ++ a2) ++ a3) ++ a4); rewrite !app_assoc; split; [reflexivity|];
     rewrite (decompressions_app ((a1 ++ a2) ++ a3) a4); apply Forall_app; split;
     [exact Hd123 | eapply Forall_impl; [exact Hd4 | intros; right; split; [lia | assumption]]]).
Qed.

End NativeRun.

Lemma fetch_and_validate_validated (E : Env) (src : Source) (cs : string)
    (loc : ManifestLocation) (log : Log) :
  exists added,
    snd (fetch_and_validate E src cs loc log) = log ++ added /\
    Forall (fun blob => validated E cs blob \/
                        (loc_offsetTarSplit loc > 0 /\
                         validated E (loc_tarSplitChecksumAnnotation loc) blob))
      (decompressions added).
Proof.
  unfold fetch_and_validate.
  destruct (negb _); [exists []; rewrite app_nil_r; split; [reflexivity | constructor]|].
  destruct (_ >? _); [exists []; rewrite app_nil_r; split; [reflexivity | constructor]|].
  destruct (_ >? _); [exists []; rewrite app_nil_r; split; [reflexivity | constructor]|].
  unfold getBlobAt, GetBlobAt.
  destruct (src _ _) as [e|outs];
    [eexists; split; [reflexivity | constructor]|].
  match goal with |- context [read_and_validate E ?c ?l ?ch ?lg] =>
    destruct (read_and_validate_validated E c l ch lg) as (a1 & H1 & Hd1);
    destruct (read_and_validate E c l ch lg) as [[[[[m t] o] retErr] rest] log2]
  end.
  simpl in H1. subst log2.
  match goal with |- context [ensureAllBlobsDone ?ch ?e ?lg] =>
    destruct (ensureAllBlobsDone_log ch e lg) as (a2 & H2 & [_ Hd2]);
    destruct (ensureAllBlobsDone ch e lg) as [err log3]
  end.
  simpl in H2. subst log3. simpl snd.
  rewrite <- !app_assoc. eexists. split; [reflexivity|].
  rewrite !decompressions_app, Hd2, app_nil_r. exact Hd1.
Qed.

(** X4: whatever the source delivers, the native reader starts the zstd
    decoder only on bytes whose digest equals the manifest checksum annotation
    or the tar-split checksum annotation; bytes that fail the comparison are
    never decompressed. *)
Theorem X4_decoder_runs_on_validated_bytes (E : Env) (src : Source) (blobSize : Z)
    (annotations : gmap string string) (log : Log) :
  exists added,
    snd (readZstdChunkedManifest E src blobSize annotations log) = log ++ added /\
    Forall (fun blob =>
              validated E (annotation annotations (ManifestChecksumKey E)) blob \/
              validated E (annotation annotations (TarSplitChecksumKey E)) blob)
      (decompressions added).
Proof.
  rewrite readZstd_located.
  destruct (blobSize <=? 56);
    [exists []; rewrite app_nil_r; split; [reflexivity | constructor]|].
  destruct (String.eqb _ EmptyString);
    [exists []; rewrite app_nil_r; split; [reflexivity | constructor]|].
  destruct (locate_log E src blobSize annotations log) as (a1 & Hlog & Hd1 & _).
  destruct (locate E src blobSize annotations log) as [[loc|r] log1] eqn:Hloc;
    simpl in Hlog; subst log1;
    [|exists a1; split; [reflexivity | rewrite Hd1; constructor]].
  destruct (fetch_and_validate_validated E src
              (annotation annotations (ManifestChecksumKey E)) loc (log ++ a1))
    as (a2 & -> & Hd2).
  exists (a1 ++ a2). rewrite app_assoc. split; [reflexivity|].
  rewrite decompressions_app, Hd1. simpl.
  eapply Forall_impl; [exact Hd2|].
  intros blob [Hm | [Hpos Ht]]; [left; exact Hm | right].
  destruct (locate_companion E src blobSize annotations log _ loc Hloc) as (_ & _ & Hcs);
    [lia|].
  now rewrite <- Hcs.
Qed.

Section NilError.

Variable E : Env.

Lemma io_ReadFull_None_length (r : Reader) (buf blob : bytes) :
  io_ReadFull r buf = (blob, None) -> (length buf <= length (r_data r))%nat.
Proof.
  unfold io_ReadFull. destruct (Nat.leb_spec (length buf) (length (r_data r))).
  - intros _. assumption.
  - discriminate.
Qed.

Lemma readBlob_Ok_length (chan rest : list streamOrErr) (len : Z) (log log' : Log)
    (blob : bytes) (s : Stream) :
  readBlob (SoeStream s :: chan) len log = (Ok blob, rest, log') ->
  (Z.to_nat len <= length (r_data (stream_reader s)))%nat.
Proof.
  simpl. destruct (io_ReadFull _ _) as [blob' [e|]] eqn:Hread; [discriminate|].
  intros _. apply io_ReadFull_None_length in Hread.
  now rewrite length_make_bytes in Hread.
Qed.

(** A run of lines 273-294 that ends without error has read the manifest in
    full from the first stream, validated and decoded it. *)
Lemma read_and_validate_nil_error (cs : string) (loc : ManifestLocation)
    (chan rest : list streamOrErr) (log log' : Log)
    (m t : option bytes) (o : Z) :
  read_and_validate E cs loc chan log = ((m, t, o, None), rest, log') ->
  exists s1 chan' decoded,
    chan = SoeStream s1 :: chan' /\
    m = Some decoded /\ t <> None /\ o = int64 (loc_offset loc) /\
    (Z.to_nat (loc_length loc) <= length (r_data (stream_reader s1)))%nat /\
    let blob := take (Z.to_nat (loc_length loc)) (r_data (stream_reader s1)) in
    validated E cs blob /\
    zstd_DecodeAll E blob (loc_lengthUncompressed loc) = Ok decoded.
Proof.
  unfold read_and_validate.
  destruct (readBlob chan _ log) as [[[manifest|e] rest1] log1] eqn:Hb1;
    [|discriminate].
  destruct (readBlob_Ok _ _ _ _ _ _ Hb1) as (s1 & -> & ->).
  apply readBlob_Ok_length in Hb1.
  destruct (decodeAndValidateBlob E _ _ cs log1) as [[d|e] log2] eqn:Hd;
    [|discriminate].
  apply (f_equal fst) in Hd. simpl in Hd.
  apply decodeAndValidateBlob_Ok in Hd. destruct Hd as (Hv & Hf & _ & Hz).
  intros Hrun.
  assert (Hres : m = Some d /\ t <> None /\ o = int64 (loc_offset loc)).
  { destruct (loc_offsetTarSplit loc >? 0).
    - destruct (readBlob rest1 _ log2) as [[[tarSplit|e] rest2] log3]; [|discriminate].
      destruct (decodeAndValidateBlob E tarSplit _ _ log3) as [[dt|e] log4];
        [|discriminate].
      injection Hrun as <- <- <- _ _. repeat split. discriminate.
    - injection Hrun as <- <- <- _ _. repeat split. discriminate. }
  destruct Hres as (-> & Ht & ->).
  exists s1, rest1, d. repeat split; auto.
Qed.

(** The one result without error that [locate] itself can return. *)
Lemma locate_return_nil_error (src : Source) (blobSize : Z)
    (annotations : gmap string string) (log log1 : Log)
    (m t : option bytes) (o : Z) :
  locate E src blobSize annotations log = (LocReturn (Returned (m, t, o, None)), log1) ->
  m = None /\ t = None /\ o = 0 /\
  annotation annotations (ManifestInfoKey E) = EmptyString /\
  src (length (requests log)) [footerChunk blobSize] = Delivers [] /\
  select_closed_takes_errs E = true.
Proof.
  unfold locate.
  destruct (String.eqb _ EmptyString) eqn:Hinfo; simpl negb; cbv iota.
  - apply String_eqb_true in Hinfo.
    unfold locate_footer, GetBlobAt.
    destruct (src _ _) as [e|[|[r|e] outs]] eqn:Hsrc; try discriminate.
    + destruct (select_closed_takes_errs E); [|discriminate].
      intros [= <- <- <- _]. repeat split; auto.
    + simpl tag_from. cbv iota beta. unfold parse_footer. simpl stream_reader.
      destruct (io_ReadFull r (make_bytes FooterSizeSupported)) as [footer [e|]];
        [discriminate|].
      destruct (negb _); discriminate.
  - unfold locate_annotations.
    destruct (Sscanf4 E _) as [[[[o' l] u] ty]|e]; [|discriminate].
    destruct (annotations !! TarSplitInfoKey E) as [w|]; [|discriminate].
    destruct (Sscanf3 E w) as [[[ot lt] lut]|e]; discriminate.
Qed.

End NilError.

(** X5: when [readZstdChunkedManifest] returns a nil error, the manifest it
    returns is the decoding of the first [length] bytes of the first stream of
    the manifest request, bytes whose digest equals the manifest checksum
    annotation, and the offset returned is the located offset converted to
    int64; the size, annotation, type and ceiling tests have all passed. The
    one exception: on the footer path a source that closes both channels
    without sending lets the [select] return a nil error with a nil
    manifest. *)
Theorem X5_nil_error_means_validated_manifest (E : Env) (src : Source)
    (blobSize : Z) (annotations : gmap string string) (log : Log)
    (m t : option bytes) (o : Z) :
  fst (readZstdChunkedManifest E src blobSize annotations log)
    = Returned (m, t, o, None) ->
  (m = None /\ t = None /\ o = 0 /\
   annotation annotations (ManifestInfoKey E) = EmptyString /\
   src (length (requests log)) [footerChunk blobSize] = Delivers [] /\
   select_closed_takes_errs E = true) \/
  (exists loc log1 r1 outs decoded,
     reaches_fetch E src blobSize annotations log loc log1 /\
     src (length (requests log1)) (manifestChunks loc) = Delivers (Ok r1 :: outs) /\
     m = Some decoded /\ t <> None /\ o = int64 (loc_offset loc) /\
     (Z.to_nat (loc_length loc) <= length (r_data r1))%nat /\
     let blob := take (Z.to_nat (loc_length loc)) (r_data r1) in
     validated E (annotation annotations (ManifestChecksumKey E)) blob /\
     zstd_DecodeAll E blob (loc_lengthUncompressed loc) = Ok decoded).
Proof.
  rewrite readZstd_located.
  destruct (Z.leb_spec blobSize 56); [discriminate|].
  destruct (String.eqb _ EmptyString) eqn:Hsum; [discriminate|].
  apply String_eqb_false in Hsum.
  destruct (locate E src blobSize annotations log) as [[loc|r] log1] eqn:Hloc.
  - intros Hrun. right.
    unfold fetch_and_validate in Hrun.
    destruct (Z.eqb_spec (loc_manifestType loc) ManifestTypeCRFS) as [Htype|];
      [|discriminate].
    simpl negb in Hrun. cbv iota in Hrun.
    destruct (Z.gtb_spec (loc_length loc) maxTocSize); [discriminate|].
    destruct (Z.gtb_spec (loc_lengthUncompressed loc) maxTocSize); [discriminate|].
    unfold getBlobAt, GetBlobAt in Hrun.
    destruct (src (length (requests log1)) (manifestChunks loc)) as [e|outs] eqn:Hsrc;
      [discriminate|].
    destruct (read_and_validate E _ loc _ _)
      as [[[[[m' t'] o'] retErr] rest] log2] eqn:Hbody.
    destruct (ensureAllBlobsDone rest None log2) as [err log3].
    simpl in Hrun. injection Hrun as <- <- <- Herr.
    destruct retErr as [e|]; [discriminate|].
    destruct (read_and_validate_nil_error E _ loc _ _ _ _ _ _ _ Hbody)
      as (s1 & chan' & decoded & Hchan & -> & Ht & -> & Hlen & Hval & Hz).
    destruct outs as [|[r1|e1] outs]; simpl in Hchan; try discriminate.
    injection Hchan as <- _. simpl in Hlen, Hval, Hz.
    exists loc, log1, r1, outs, decoded.
    repeat split; auto; try lia; apply Hval.
  - simpl. intros ->. left.
    now apply (locate_return_nil_error E src blobSize annotations log log1).
Qed.

Lemma X5_witness :
  exists loc log1 r1 outs decoded,
    reaches_fetch Mock.env (Mock.always [Mock.manifest_stream]) 100
      Mock.ann_position [] loc log1 /\
    Mock.always [Mock.manifest_stream] (length (requests log1)) (manifestChunks loc)
      = Delivers (Ok r1 :: outs) /\
    Some (Mock.b "hello") = Some decoded /\ Some [] <> @None bytes /\
    10 = int64 (loc_offset loc) /\
    (Z.to_nat (loc_length loc) <= length (r_data r1))%nat /\
    let blob := take (Z.to_nat (loc_length loc)) (r_data r1) in
    validated Mock.env (annotation Mock.ann_position (ManifestChecksumKey Mock.env))
      blob /\
    zstd_DecodeAll Mock.env blob (loc_lengthUncompressed loc) = Ok decoded.
Proof.
  assert (H := X5_nil_error_means_validated_manifest Mock.env
                 (Mock.always [Mock.manifest_stream]) 100 Mock.ann_position []
                 (Some (Mock.b "hello")) (Some []) 10).
  destruct (H ltac:(vm_compute; reflexivity)) as [(Hm & _) | Hok].
  - discriminate Hm.
  - exact Hok.
Defined.

(** X6: the native reader asks the source for the manifest only after every
    test has passed: a call that makes a request beyond what locating the
    manifest needed has a blob larger than the footer, a checksum annotation,
    the recognized manifest type, and declared lengths within the 50 MiB
    ceiling. *)
Theorem X6_manifest_requested_only_after_tests (E : Env) (src : Source)
    (blobSize : Z) (annotations : gmap string string) (log : Log)
    (loc : ManifestLocation) (log1 : Log) :
  locate E src blobSize annotations log = (LocOk loc, log1) ->
  (length (requests log1)
     < length (requests (snd (readZstdChunkedManifest E src blobSize annotations log))))%nat ->
  56 < blobSize /\
  annotation annotations (ManifestChecksumKey E) <> EmptyString /\
  loc_manifestType loc = ManifestTypeCRFS /\
  loc_length loc <= maxTocSize /\
  loc_lengthUncompressed loc <= maxTocSize.
Proof.
  intros Hloc Hreq.
  destruct (readZstd_request_reaches E src blobSize annotations log loc log1 Hloc Hreq)
    as (H1 & H2 & _ & H3 & H4 & H5).
  auto.
Qed.

Lemma X6_witness :
  56 < 100 /\
  annotation Mock.ann_position (ManifestChecksumKey Mock.env) <> EmptyString /\
  loc_manifestType Mock.loc_position = ManifestTypeCRFS /\
  loc_length Mock.loc_position <= maxTocSize /\
  loc_lengthUncompressed Mock.loc_position <= maxTocSize.
Proof.
  refine (X6_manifest_requested_only_after_tests Mock.env
            (Mock.always [Mock.manifest_stream]) 100 Mock.ann_position []
            Mock.loc_position [] _ _).
  - vm_compute. reflexivity.
  - vm_compute. lia.
Defined.

(** X7: a metadata annotation that does not scan as four numbers, or a
    tar-split annotation that does not scan as three, ends the call with the
    scanner's error before anything is requested from the source; the
    tar-split annotation does so even next to a well-formed metadata
    annotation. *)
Theorem X7_malformed_annotation (E : Env) (src : Source) (blobSize : Z)
    (annotations : gmap string string) (log : Log) (e : error) :
  56 < blobSize ->
  annotation annotations (ManifestChecksumKey E) <> EmptyString ->
  annotation annotations (ManifestInfoKey E) <> EmptyString ->
  (Sscanf4 E (annotation annotations (ManifestInfoKey E)) = Err e ->
   readZstdChunkedManifest E src blobSize annotations log = (fails e, log)) /\
  (forall (o l u t : Z) (w : string),
     Sscanf4 E (annotation annotations (ManifestInfoKey E)) = Ok (o, l, u, t) ->
     annotations !! TarSplitInfoKey E = Some w ->
     Sscanf3 E w = Err e ->
     readZstdChunkedManifest E src blobSize annotations log = (fails e, log)).
Proof.
  intros Hsize Hsum Hinfo.
  assert (Hrun := readZstd_annotated E src blobSize annotations log Hinfo).
  destruct (Z.leb_spec blobSize 56); [lia|].
  apply String_eqb_false in Hsum. rewrite Hsum in Hrun.
  split.
  - intros Hscan. rewrite Hrun. unfold locate_annotations. now rewrite Hscan.
  - intros o l u t w Hscan Hw Hscan3. rewrite Hrun. unfold locate_annotations.
    now rewrite Hscan, Hw, Hscan3.
Qed.

Lemma X7_witness :
  readZstdChunkedManifest Mock.env (Mock.always [])
    100 (<[ ManifestInfoKey Mock.env := "10:6"%string ]> Mock.ann_checksum) []
    = (fails (ErrExternal "unexpected input"), []) /\
  readZstdChunkedManifest Mock.env (Mock.always [])
    100 (<[ TarSplitInfoKey Mock.env := "20;6;5"%string ]> Mock.ann_position) []
    = (fails (ErrExternal "unexpected input"), []).
Proof.
  split.
  - refine (proj1 (X7_malformed_annotation Mock.env (Mock.always []) 100 _ []
                     (ErrExternal "unexpected input") _ _ _) _).
    + lia.
    + vm_compute. discriminate.
    + vm_compute. discriminate.
    + vm_compute. reflexivity.
  - refine (proj2 (X7_malformed_annotation Mock.env (Mock.always []) 100 _ []
                     (ErrExternal "unexpected input") _ _ _)
              10 6 5 1 "20;6;5"%string _ _ _).
    + lia.
    + vm_compute. discriminate.
    + vm_compute. discriminate.
    + vm_compute. reflexivity.
    + vm_compute. reflexivity.
    + vm_compute. reflexivity.
Defined.

(** ** Deliveries of the manifest request *)

Section Deliveries.

Variable E : Env.

Lemma io_ReadFull_short (r : Reader) (buf : bytes) :
  (length (r_data r) < length buf)%nat ->
  snd (io_ReadFull r buf) = Some (short_read_error r).
Proof.
  intros H. unfold io_ReadFull.
  destruct (Nat.leb_spec (length buf) (length (r_data r))); [lia | reflexivity].
Qed.

Lemma readBlob_short (s : Stream) (rest : list streamOrErr) (len : Z) (log : Log) :
  (length (r_data (stream_reader s)) < Z.to_nat len)%nat ->
  readBlob (SoeStream s :: rest) len log
    = (Err (short_read_error (stream_reader s)), rest,
       log ++ [EvRecv (stream_id s); EvClose (stream_id s)]).
Proof.
  intros H. simpl.
  pose proof (io_ReadFull_short (stream_reader s) (make_bytes len)) as Hs.
  rewrite length_make_bytes in Hs. specialize (Hs H).
  destruct (io_ReadFull _ _) as [blob err]. simpl in Hs. now subst err.
Qed.

Lemma readBlob_full (s : Stream) (rest : list streamOrErr) (len : Z) (log : Log) :
  (Z.to_nat len <= length (r_data (stream_reader s)))%nat ->
  readBlob (SoeStream s :: rest) len log
    = (Ok (take (Z.to_nat len) (r_data (stream_reader s))), rest,
       log ++ [EvRecv (stream_id s); EvClose (stream_id s)]).
Proof.
  intros H. simpl. rewrite io_ReadFull_enough by now rewrite length_make_bytes.
  now rewrite length_make_bytes.
Qed.

Lemma decodeAndValidateBlob_run (blob : bytes) (len : Z) (cs : string) (log : Log)
    (decoded : bytes) :
  validated E cs blob ->
  zstd_NewReader E = None ->
  zstd_DecodeAll E blob len = Ok decoded ->
  decodeAndValidateBlob E blob len cs log = (Ok decoded, log ++ [EvDecompress blob]).
Proof.
  intros [Hv Hd] Hn Hz. unfold decodeAndValidateBlob.
  rewrite Hv, Hd, String.eqb_refl, Hn, Hz. reflexivity.
Qed.

(** A valid stream at the head of the channel is read, validated and
    decoded. *)
Lemma read_validate_head (s : Stream) (rest : list streamOrErr) (cs : string)
    (len lenUncompressed : Z) (decoded : bytes) (log : Log) :
  delivers_valid E cs len lenUncompressed (stream_reader s) decoded ->
  readBlob (SoeStream s :: rest) len log
    = (Ok (take (Z.to_nat len) (r_data (stream_reader s))), rest,
       log ++ [EvRecv (stream_id s); EvClose (stream_id s)]) /\
  forall lg,
    decodeAndValidateBlob E (take (Z.to_nat len) (r_data (stream_reader s)))
      lenUncompressed cs lg
    = (Ok decoded, lg ++ [EvDecompress (take (Z.to_nat len) (r_data (stream_reader s)))]).
Proof.
  intros (Hlen & Hval & Hn & Hz). split.
  - now apply readBlob_full.
  - intros lg. now apply decodeAndValidateBlob_run.
Qed.

(** The deferred drain closes every stream left in the channel and reports
    the first error left in it. *)
Lemma ensureAllBlobsDone_closes (chan : list streamOrErr) :
  forall (retErr : option error) (log : Log),
  exists added,
    snd (ensureAllBlobsDone chan retErr log) = log ++ added /\
    drains_quietly added /\ closed added = stream_ids chan.
Proof.
  induction chan as [|[s|e] chan IH]; intros retErr log; simpl.
  - exists []. rewrite app_nil_r. auto with drain.
  - destruct (IH retErr (log ++ [EvRecv (stream_id s); EvClose (stream_id s)]))
      as (added & -> & Hq & Hc).
    exists ([EvRecv (stream_id s); EvClose (stream_id s)] ++ added).
    rewrite app_assoc. split; [reflexivity|]. split; [auto with drain|].
    rewrite closed_app, Hc. reflexivity.
  - apply IH.
Qed.

Lemma ensureAllBlobsDone_keeps (chan : list streamOrErr) :
  forall (e : error) (log : Log),
  fst (ensureAllBlobsDone chan (Some e) log) = Some e.
Proof.
  induction chan as [|[s|e'] chan IH]; intros e log; simpl; auto.
Qed.

Lemma ensureAllBlobsDone_streams_only (chan : list streamOrErr) :
  forall (log : Log),
  Forall (fun soe => exists s, soe = SoeStream s) chan ->
  fst (ensureAllBlobsDone chan None log) = None.
Proof.
  induction chan as [|soe chan IH]; intros log H; simpl; [reflexivity|].
  inversion H as [|? ? [s ->] Hrest]; subst. now apply IH.
Qed.

End Deliveries.

(** X8: when the stream of the manifest range ends before the declared
    compressed length has been read, the call fails with the error of
    [io.ReadFull]: the stream's own error, except that the end of the stream
    is reported as io.EOF when no byte arrived and as io.ErrUnexpectedEOF after
    at least one; nothing is decompressed, and that stream and every stream
    delivered after it are closed. *)
Theorem X8_short_manifest_stream (E : Env) (src : Source) (blobSize : Z)
    (annotations : gmap string string) (log : Log)
    (loc : ManifestLocation) (log1 : Log) (r : Reader) (outs : list (res Reader)) :
  reaches_fetch E src blobSize annotations log loc log1 ->
  src (length (requests log1)) (manifestChunks loc) = Delivers (Ok r :: outs) ->
  (length (r_data r) < Z.to_nat (loc_length loc))%nat ->
  fst (readZstdChunkedManifest E src blobSize annotations log)
    = fails (short_read_error r) /\
  exists added,
    snd (readZstdChunkedManifest E src blobSize annotations log)
      = log1 ++ EvGetBlobAt (manifestChunks loc) :: added /\
    decompressions added = [] /\
    closed added
      = (length (requests log1), 0%nat)
          :: stream_ids (tag_from (length (requests log1)) 1 outs).
Proof.
  intros Hreach Hsrc Hshort.
  rewrite (readZstd_reaches E src blobSize annotations log loc log1 Hreach), Hsrc.
  cbv zeta. simpl tag_from. unfold read_and_validate.
  rewrite readBlob_short by exact Hshort. simpl stream_reader. simpl stream_id.
  match goal with |- context [ensureAllBlobsDone ?ch None ?lg] =>
    destruct (ensureAllBlobsDone_closes ch None lg) as (a & Ha & [_ Hd] & Hc);
    destruct (ensureAllBlobsDone ch None lg) as [err log4]
  end.
  simpl in Ha. subst log4. simpl. split; [reflexivity|].
  rewrite <- !app_assoc. eexists. split; [reflexivity|].
  split.
  - rewrite decompressions_app, Hd. reflexivity.
  - rewrite closed_app, Hc. reflexivity.
Qed.

Lemma X8_witness :
  (fst (readZstdChunkedManifest Mock.env
          (Mock.always [Ok (mkReader (Mock.b "Zhe") None)]) 100 Mock.ann_position [])
     = fails ErrUnexpectedEOF /\
   exists added,
     snd (readZstdChunkedManifest Mock.env
            (Mock.always [Ok (mkReader (Mock.b "Zhe") None)]) 100 Mock.ann_position [])
       = [] ++ EvGetBlobAt (manifestChunks Mock.loc_position) :: added /\
     decompressions added = [] /\
     closed added = (0%nat, 0%nat) :: stream_ids (tag_from 0 1 [])) /\
  (fst (readZstdChunkedManifest Mock.env
          (Mock.always [Ok (mkReader (Mock.b "Zhe") (Some ErrEOF))]) 100
          Mock.ann_position [])
     = fails ErrUnexpectedEOF /\
   exists added,
     snd (readZstdChunkedManifest Mock.env
            (Mock.always [Ok (mkReader (Mock.b "Zhe") (Some ErrEOF))]) 100
            Mock.ann_position [])
       = [] ++ EvGetBlobAt (manifestChunks Mock.loc_position) :: added /\
     decompressions added = [] /\
     closed added = (0%nat, 0%nat) :: stream_ids (tag_from 0 1 [])).
Proof.
  split.
  - refine (X8_short_manifest_stream Mock.env
              (Mock.always [Ok (mkReader (Mock.b "Zhe") None)]) 100 Mock.ann_position []
              Mock.loc_position [] (mkReader (Mock.b "Zhe") None) [] _ _ _).
    + repeat split; try (vm_compute; congruence).
    + reflexivity.
    + vm_compute. lia.
  - refine (X8_short_manifest_stream Mock.env
              (Mock.always [Ok (mkReader (Mock.b "Zhe") (Some ErrEOF))]) 100
              Mock.ann_position []
              Mock.loc_position [] (mkReader (Mock.b "Zhe") (Some ErrEOF)) [] _ _ _).
    + repeat split; try (vm_compute; congruence).
    + reflexivity.
    + vm_compute. lia.
Defined.

(** X9: a source that closes the channel before delivering an expected
    outcome makes the call fail with the stream-closed error: for the manifest
    when nothing is delivered, and for the companion when only a valid
    manifest is delivered although a companion was requested. *)
Theorem X9_channel_closed_early (E : Env) (src : Source) (blobSize : Z)
    (annotations : gmap string string) (log : Log)
    (loc : ManifestLocation) (log1 : Log) :
  reaches_fetch E src blobSize annotations log loc log1 ->
  (src (length (requests log1)) (manifestChunks loc) = Delivers [] ->
   readZstdChunkedManifest E src blobSize annotations log
     = (fails ErrStreamClosed, log1 ++ [EvGetBlobAt (manifestChunks loc)])) /\
  (forall (r1 : Reader) (decoded : bytes),
     loc_offsetTarSplit loc > 0 ->
     src (length (requests log1)) (manifestChunks loc) = Delivers [Ok r1] ->
     delivers_valid E (annotation annotations (ManifestChecksumKey E))
       (loc_length loc) (loc_lengthUncompressed loc) r1 decoded ->
     fst (readZstdChunkedManifest E src blobSize annotations log)
       = fails ErrStreamClosed).
Proof.
  intros Hreach.
  rewrite (readZstd_reaches E src blobSize annotations log loc log1 Hreach).
  split.
  - intros ->. reflexivity.
  - intros r1 decoded Hpos -> Hvalid. cbv zeta. simpl tag_from.
    unfold read_and_validate.
    destruct (read_validate_head E (mkStream (length (requests log1), 0%nat) r1) []
                _ _ _ decoded
                (log1 ++ [EvGetBlobAt (manifestChunks loc)]) Hvalid) as [-> Hdec].
    rewrite Hdec.
    destruct (Z.gtb_spec (loc_offsetTarSplit loc) 0); [|lia].
    reflexivity.
Qed.

Lemma X9_witness :
  readZstdChunkedManifest Mock.env (Mock.always []) 100 Mock.ann_position []
    = (fails ErrStreamClosed, [] ++ [EvGetBlobAt (manifestChunks Mock.loc_position)]) /\
  fst (readZstdChunkedManifest Mock.env (Mock.always [Mock.manifest_stream]) 100
         Mock.ann_companion [])
    = fails ErrStreamClosed.
Proof.
  split.
  - refine (proj1 (X9_channel_closed_early Mock.env (Mock.always []) 100
                     Mock.ann_position [] Mock.loc_position [] _) _).
    + repeat split; try (vm_compute; congruence).
    + reflexivity.
  - refine (proj2 (X9_channel_closed_early Mock.env (Mock.always [Mock.manifest_stream])
                     100 Mock.ann_companion [] Mock.loc_companion [] _)
              (mkReader (Mock.b "Zhello") None) (Mock.b "hello") _ _ _).
    + repeat split; try (vm_compute; congruence).
    + reflexivity.
    + reflexivity.
    + repeat split; try (vm_compute; lia).
Defined.

(** X10: an error delivered in place of the manifest stream is the error of
    the call, and every stream delivered after it is still received and
    closed before the call returns. An error delivered in place of the
    companion stream, after a valid manifest, is likewise the error of the
    call: the decoded manifest is dropped, the manifest stream has been
    closed and so is every stream delivered later. *)
Theorem X10_delivered_error_is_returned (E : Env) (src : Source) (blobSize : Z)
    (annotations : gmap string string) (log : Log)
    (loc : ManifestLocation) (log1 : Log) (e : error) (outs : list (res Reader)) :
  reaches_fetch E src blobSize annotations log loc log1 ->
  let n := length (requests log1) in
  (src n (manifestChunks loc) = Delivers (Err e :: outs) ->
   fst (readZstdChunkedManifest E src blobSize annotations log) = fails e /\
   exists added,
     snd (readZstdChunkedManifest E src blobSize annotations log)
       = log1 ++ EvGetBlobAt (manifestChunks loc) :: added /\
     received added = closed added /\
     closed added = stream_ids (tag_from n 1 outs)) /\
  (forall (r1 : Reader) (decoded : bytes),
     loc_offsetTarSplit loc > 0 ->
     src n (manifestChunks loc) = Delivers (Ok r1 :: Err e :: outs) ->
     delivers_valid E (annotation annotations (ManifestChecksumKey E))
       (loc_length loc) (loc_lengthUncompressed loc) r1 decoded ->
     fst (readZstdChunkedManifest E src blobSize annotations log) = fails e /\
     exists added,
       snd (readZstdChunkedManifest E src blobSize annotations log)
         = log1 ++ EvGetBlobAt (manifestChunks loc) :: added /\
       received added = closed added /\
       closed added = (n, 0%nat) :: stream_ids (tag_from n 2 outs)).
Proof.
  intros Hreach n.
  rewrite (readZstd_reaches E src blobSize annotations log loc log1 Hreach).
  fold n. split.
  - intros ->. cbv zeta. simpl tag_from. unfold read_and_validate. simpl readBlob.
    cbv iota beta.
    match goal with |- context [ensureAllBlobsDone ?ch None ?lg] =>
      destruct (ensureAllBlobsDone_closes ch None lg) as (a & Ha & [[_ Hrc] _] & Hc);
      destruct (ensureAllBlobsDone ch None lg) as [err log4]
    end.
    simpl in Ha. subst log4. simpl. split; [reflexivity|].
    rewrite <- app_assoc. eauto.
  - intros r1 decoded Hpos -> Hvalid. cbv zeta. simpl tag_from.
    unfold read_and_validate.
    destruct (read_validate_head E (mkStream (n, 0%nat) r1)
                (SoeErr e :: tag_from n 2 outs) _ _ _ decoded
                (log1 ++ [EvGetBlobAt (manifestChunks loc)]) Hvalid) as [-> Hdec].
    rewrite Hdec.
    destruct (Z.gtb_spec (loc_offsetTarSplit loc) 0); [|lia].
    simpl readBlob. cbv iota beta.
    match goal with |- context [ensureAllBlobsDone ?ch None ?lg] =>
      destruct (ensureAllBlobsDone_closes ch None lg) as (a & Ha & [[_ Hrc] _] & Hc);
      destruct (ensureAllBlobsDone ch None lg) as [err log4]
    end.
    simpl in Ha. subst log4. simpl. split; [reflexivity|].
    rewrite <- !app_assoc. eexists. split; [reflexivity|].
    split.
    + rewrite !received_app, !closed_app, Hrc. reflexivity.
    + rewrite !closed_app, Hc. reflexivity.
Qed.

Lemma X10_witness :
  (fst (readZstdChunkedManifest Mock.env
          (Mock.always [Err (ErrExternal "timeout"); Mock.manifest_stream]) 100
          Mock.ann_position [])
     = fails (ErrExternal "timeout") /\
   exists added,
     snd (readZstdChunkedManifest Mock.env
            (Mock.always [Err (ErrExternal "timeout"); Mock.manifest_stream]) 100
            Mock.ann_position [])
       = [] ++ EvGetBlobAt (manifestChunks Mock.loc_position) :: added /\
     received added = closed added /\
     closed added = stream_ids (tag_from 0 1 [Mock.manifest_stream])) /\
  (fst (readZstdChunkedManifest Mock.env
          (Mock.always [Mock.manifest_stream; Err (ErrExternal "timeout")]) 100
          Mock.ann_companion [])
     = fails (ErrExternal "timeout") /\
   exists added,
     snd (readZstdChunkedManifest Mock.env
            (Mock.always [Mock.manifest_stream; Err (ErrExternal "timeout")]) 100
            Mock.ann_companion [])
       = [] ++ EvGetBlobAt (manifestChunks Mock.loc_companion) :: added /\
     received added = closed added /\
     closed added = (0%nat, 0%nat) :: stream_ids (tag_from 0 2 [])).
Proof.
  split.
  - refine (proj1 (X10_delivered_error_is_returned Mock.env
                     (Mock.always [Err (ErrExternal "timeout"); Mock.manifest_stream])
                     100 Mock.ann_position [] Mock.loc_position []
                     (ErrExternal "timeout") [Mock.manifest_stream] _) _).
    + repeat split; try (vm_compute; congruence).
    + reflexivity.
  - refine (proj2 (X10_delivered_error_is_returned Mock.env
                     (Mock.always [Mock.manifest_stream; Err (ErrExternal "timeout")])
                     100 Mock.ann_companion [] Mock.loc_companion []
                     (ErrExternal "timeout") [] _)
              (mkReader (Mock.b "Zhello") None) (Mock.b "hello") _ _ _).
    + repeat split; try (vm_compute; congruence).
    + reflexivity.
    + reflexivity.
    + repeat split; try (vm_compute; lia).
Defined.

(** X11: when the source delivers exactly the streams asked for and each
    carries at least the declared number of bytes, with the digest its
    checksum annotation names, in a form the decoder accepts, the call
    succeeds: it returns the decoded manifest, the decoded companion (empty
    when none was requested) and the located offset as int64, having closed
    each stream after reading exactly the declared length from it. The
    lengths declared for the manifest have passed the ceiling test; those
    declared for the companion are tested nowhere, and success is stated for
    lengths within the same ceiling, which can be allocated. *)
Theorem X11_valid_deliveries_succeed (E : Env) (src : Source) (blobSize : Z)
    (annotations : gmap string string) (log : Log)
    (loc : ManifestLocation) (log1 : Log) :
  reaches_fetch E src blobSize annotations log loc log1 ->
  let n := length (requests log1) in
  let cs := annotation annotations (ManifestChecksumKey E) in
  (forall (r1 : Reader) (decoded : bytes),
     loc_offsetTarSplit loc <= 0 ->
     src n (manifestChunks loc) = Delivers [Ok r1] ->
     delivers_valid E cs (loc_length loc) (loc_lengthUncompressed loc) r1 decoded ->
     readZstdChunkedManifest E src blobSize annotations log
       = (Returned (Some decoded, Some [], int64 (loc_offset loc), None),
          log1 ++ [EvGetBlobAt (manifestChunks loc);
                   EvRecv (n, 0%nat); EvClose (n, 0%nat);
                   EvDecompress (take (Z.to_nat (loc_length loc)) (r_data r1))])) /\
  (forall (r1 r2 : Reader) (decoded decodedTarSplit : bytes),
     loc_offsetTarSplit loc > 0 ->
     within_ceiling (loc_lengthTarSplit loc) ->
     within_ceiling (loc_lengthUncompressedTarSplit loc) ->
     src n (manifestChunks loc) = Delivers [Ok r1; Ok r2] ->
     delivers_valid E cs (loc_length loc) (loc_lengthUncompressed loc) r1 decoded ->
     delivers_valid E (loc_tarSplitChecksumAnnotation loc) (loc_lengthTarSplit loc)
       (loc_lengthUncompressedTarSplit loc) r2 decodedTarSplit ->
     readZstdChunkedManifest E src blobSize annotations log
       = (Returned (Some decoded, Some decodedTarSplit, int64 (loc_offset loc), None),
          log1 ++ [EvGetBlobAt (manifestChunks loc);
                   EvRecv (n, 0%nat); EvClose (n, 0%nat);
                   EvDecompress (take (Z.to_nat (loc_length loc)) (r_data r1));
                   EvRecv (n, 1%nat); EvClose (n, 1%nat);
                   EvDecompress (take (Z.to_nat (loc_lengthTarSplit loc)) (r_data r2))])).
Proof.
  intros Hreach n cs.
  rewrite (readZstd_reaches E src blobSize annotations log loc log1 Hreach).
  fold n cs. split.
  - intros r1 decoded Hnone -> Hvalid. cbv zeta. simpl tag_from.
    unfold read_and_validate.
    destruct (read_validate_head E (mkStream (n, 0%nat) r1) [] _ _ _ decoded
                (log1 ++ [EvGetBlobAt (manifestChunks loc)]) Hvalid) as [-> Hdec].
    rewrite Hdec.
    destruct (Z.gtb_spec (loc_offsetTarSplit loc) 0); [lia|].
    simpl. rewrite <- !app_assoc. reflexivity.
  - intros r1 r2 decoded decodedTarSplit Hpos _ _ -> Hvalid Hvalid2. cbv zeta.
    simpl tag_from. unfold read_and_validate.
    destruct (read_validate_head E (mkStream (n, 0%nat) r1)
                [SoeStream (mkStream (n, 1%nat) r2)] _ _ _ decoded
                (log1 ++ [EvGetBlobAt (manifestChunks loc)]) Hvalid) as [-> Hdec].
    rewrite Hdec.
    destruct (Z.gtb_spec (loc_offsetTarSplit loc) 0); [|lia].
    match goal with |- context [readBlob [SoeStream ?s] ?l ?lg] =>
      destruct (read_validate_head E s [] _ _ _ decodedTarSplit lg Hvalid2)
        as [-> Hdec2]
    end.
    rewrite Hdec2. simpl. rewrite <- !app_assoc. reflexivity.
Qed.

Lemma X11_witness :
  readZstdChunkedManifest Mock.env (Mock.always [Mock.manifest_stream]) 100
    Mock.ann_position []
    = (Returned (Some (Mock.b "hello"), Some [], 10, None),
       [EvGetBlobAt [mkChunk 10 6]; EvRecv (0%nat, 0%nat); EvClose (0%nat, 0%nat);
        EvDecompress (Mock.b "Zhello")]) /\
  readZstdChunkedManifest Mock.env Mock.src_companion 100 Mock.ann_companion []
    = (Returned (Some (Mock.b "hello"), Some (Mock.b "split"), 10, None),
       [EvGetBlobAt [mkChunk 10 6; mkChunk 20 6];
        EvRecv (0%nat, 0%nat); EvClose (0%nat, 0%nat); EvDecompress (Mock.b "Zhello");
        EvRecv (0%nat, 1%nat); EvClose (0%nat, 1%nat); EvDecompress (Mock.b "Zsplit")]).
Proof.
  split.
  - refine (proj1 (X11_valid_deliveries_succeed Mock.env
                     (Mock.always [Mock.manifest_stream]) 100 Mock.ann_position []
                     Mock.loc_position [] _)
              (mkReader (Mock.b "Zhello") None) (Mock.b "hello") _ _ _).
    + repeat split; try (vm_compute; congruence).
    + vm_compute. congruence.
    + reflexivity.
    + repeat split; try (vm_compute; lia).
  - refine (proj2 (X11_valid_deliveries_succeed Mock.env Mock.src_companion 100
                     Mock.ann_companion [] Mock.loc_companion [] _)
              (mkReader (Mock.b "Zhello") None) (mkReader (Mock.b "Zsplit") None)
              (Mock.b "hello") (Mock.b "split") _ _ _ _ _ _).
    + repeat split; try (vm_compute; congruence).
    + reflexivity.
    + split; vm_compute; discriminate.
    + split; vm_compute; discriminate.
    + reflexivity.
    + repeat split; try (vm_compute; lia).
    + repeat split; try (vm_compute; lia).
Defined.

(** X12: the deferred drain can turn a finished read into an error without
    taking the results back. When no companion is requested and the source
    delivers, after a valid manifest stream, an outcome that carries an
    error, the call returns that error together with the decoded manifest,
    the empty companion and the offset. *)
Theorem X12_late_error_keeps_results (E : Env) (src : Source) (blobSize : Z)
    (annotations : gmap string string) (log : Log)
    (loc : ManifestLocation) (log1 : Log)
    (r1 : Reader) (decoded : bytes) (e : error) (outs : list (res Reader)) :
  reaches_fetch E src blobSize annotations log loc log1 ->
  loc_offsetTarSplit loc <= 0 ->
  src (length (requests log1)) (manifestChunks loc) = Delivers (Ok r1 :: Err e :: outs) ->
  delivers_valid E (annotation annotations (ManifestChecksumKey E))
    (loc_length loc) (loc_lengthUncompressed loc) r1 decoded ->
  fst (readZstdChunkedManifest E src blobSize annotations log)
    = Returned (Some decoded, Some [], int64 (loc_offset loc), Some e).
Proof.
  intros Hreach Hnone Hsrc Hvalid.
  rewrite (readZstd_reaches E src blobSize annotations log loc log1 Hreach), Hsrc.
  cbv zeta. simpl tag_from. unfold read_and_validate.
  match goal with |- context [readBlob (SoeStream ?s :: ?rest) ?l ?lg] =>
    destruct (read_validate_head E s rest _ _ _ decoded lg Hvalid) as [-> Hdec]
  end.
  rewrite Hdec.
  destruct (Z.gtb_spec (loc_offsetTarSplit loc) 0); [lia|].
  simpl ensureAllBlobsDone.
  match goal with |- context [ensureAllBlobsDone ?ch (Some e) ?lg] =>
    pose proof (ensureAllBlobsDone_keeps ch e lg) as Hkeep;
    destruct (ensureAllBlobsDone ch (Some e) lg) as [err log4]
  end.
  simpl in Hkeep. subst err. reflexivity.
Qed.

Lemma X12_witness :
  fst (readZstdChunkedManifest Mock.env
         (Mock.always [Mock.manifest_stream; Err (ErrExternal "timeout")]) 100
         Mock.ann_position [])
    = Returned (Some (Mock.b "hello"), Some [], 10, Some (ErrExternal "timeout")).
Proof.
  refine (X12_late_error_keeps_results Mock.env
            (Mock.always [Mock.manifest_stream; Err (ErrExternal "timeout")]) 100
            Mock.ann_position [] Mock.loc_position []
            (mkReader (Mock.b "Zhello") None) (Mock.b "hello")
            (ErrExternal "timeout") [] _ _ _ _).
  - repeat split; try (vm_compute; congruence).
  - vm_compute. congruence.
  - reflexivity.
  - repeat split; try (vm_compute; lia).
Defined.

(** ** Requests made of the source *)

Lemma readEstargz_requests (E : Env) (src : Source) (blobSize : Z)
    (annotations : gmap string string) (log : Log) :
  exists added,
    snd (readEstargzChunkedManifest E src blobSize annotations log) = log ++ added /\
    (requests added = [] \/
     requests added = [[mkChunk (uint64 (blobSize - 51)) (uint64 51)]] \/
     exists chunk,
       requests added = [[mkChunk (uint64 (blobSize - 51)) (uint64 51)]; [chunk]]).
Proof.
  unfold readEstargzChunkedManifest. cbv zeta.
  destruct (blobSize <=? 51); [exists []; rewrite app_nil_r; auto|].
  unfold getBlobAt, GetBlobAt.
  destruct (src _ _) as [e|outs]; [eexists; split; [reflexivity|]; auto|].
  match goal with |- context [estargz_footer_loop ?c ?f ?e ?l] =>
    destruct (estargz_footer_loop_log c f e l) as (a1 & H1 & [[Hr1 _] _]);
    destruct (estargz_footer_loop c f e l) as [[footer1 e1] log2]
  end.
  simpl in H1. subst log2.
  assert (Hone : exists added,
            (log ++ [EvGetBlobAt [mkChunk (uint64 (blobSize - 51)) (uint64 51)]]) ++ a1
              = log ++ added /\
            (requests added = [] \/
             requests added = [[mkChunk (uint64 (blobSize - 51)) (uint64 51)]] \/
             exists chunk,
               requests added
                 = [[mkChunk (uint64 (blobSize - 51)) (uint64 51)]; [chunk]])).
  { rewrite <- app_assoc. eexists. split; [reflexivity|].
    right. left. split_log. now rewrite Hr1. }
  destruct (strconv_ParseInt16 E _) as [tocOffset|e]; [|exact Hone].
  destruct (_ >? _); [exact Hone|].
  assert (Htwo : forall a2, requests a2 = [] -> exists added,
            (((log ++ [EvGetBlobAt [mkChunk (uint64 (blobSize - 51)) (uint64 51)]]) ++ a1)
               ++ [EvGetBlobAt [mkChunk (uint64 tocOffset)
                                  (uint64 (int64 (blobSize - 51 - tocOffset)))]]) ++ a2
              = log ++ added /\
            (requests added = [] \/
             requests added = [[mkChunk (uint64 (blobSize - 51)) (uint64 51)]] \/
             exists chunk,
               requests added
                 = [[mkChunk (uint64 (blobSize - 51)) (uint64 51)]; [chunk]])).
  { intros a2 Hr2. rewrite <- !app_assoc. eexists. split; [reflexivity|].
    right. right. eexists. split_log. rewrite Hr1, Hr2. reflexivity. }
  destruct (src _ _) as [e|outs2].
  { simpl snd. rewrite <- (app_nil_r (_ ++ [EvGetBlobAt [mkChunk (uint64 tocOffset) _]])).
    now apply Htwo. }
  match goal with |- context [estargz_manifest_loop E ?c ?m ?e ?l] =>
    destruct (estargz_manifest_loop_log E c m e l) as (a2 & H2 & [Hr2 _]);
    destruct (estargz_manifest_loop E c m e l) as [[m2 e2] log4]
  end.
  simpl in H2. subst log4.
  destruct m2 as [m|]; [|now apply Htwo].
  destruct (digest_Validate E _); [now apply Htwo|].
  destruct (negb _); now apply Htwo.
Qed.

(** X13: one call makes at most two requests of the source. The native reader
    makes at most the footer request and the manifest request, and at most one
    request when the metadata annotation is present; the gzip-family reader
    starts with the request for the 51 footer bytes at [blobSize-51] and makes
    at most one more, for a single range. *)
Theorem X13_at_most_two_requests (E : Env) (src : Source) (blobSize : Z)
    (annotations : gmap string string) (log : Log) :
  (exists added,
     snd (readZstdChunkedManifest E src blobSize annotations log) = log ++ added /\
     (length (requests added) <= 2)%nat /\
     (annotation annotations (ManifestInfoKey E) <> EmptyString ->
      (length (requests added) <= 1)%nat)) /\
  (exists added,
     snd (readEstargzChunkedManifest E src blobSize annotations log) = log ++ added /\
     (requests added = [] \/
      requests added = [[mkChunk (uint64 (blobSize - 51)) (uint64 51)]] \/
      exists chunk,
        requests added = [[mkChunk (uint64 (blobSize - 51)) (uint64 51)]; [chunk]])).
Proof.
  split; [|apply readEstargz_requests].
  rewrite readZstd_located.
  destruct (blobSize <=? 56);
    [exists []; rewrite app_nil_r; simpl; repeat split; auto; lia|].
  destruct (String.eqb _ EmptyString);
    [exists []; rewrite app_nil_r; simpl; repeat split; auto; lia|].
  destruct (locate_log E src blobSize annotations log) as (a1 & Hlog & _ & _ & Hr1).
  assert (Hann : annotation annotations (ManifestInfoKey E) <> EmptyString ->
                 requests a1 = []).
  { intros Hinfo. rewrite (locate_annotated E src blobSize annotations log Hinfo) in Hlog.
    simpl in Hlog. apply (f_equal (@length Event)) in Hlog.
    rewrite length_app in Hlog. destruct a1; [reflexivity | simpl in Hlog; lia]. }
  destruct (locate E src blobSize annotations log) as [[loc|r] log1];
    simpl in Hlog; subst log1.
  - destruct (fetch_and_validate_log E src
                (annotation annotations (ManifestChecksumKey E)) loc (log ++ a1))
      as (a2 & -> & _ & Hr2).
    exists (a1 ++ a2). rewrite app_assoc. split; [reflexivity|].
    rewrite requests_app, length_app. split.
    + destruct Hr1 as [-> | ->], Hr2 as [-> | ->]; simpl; lia.
    + intros Hinfo. rewrite (Hann Hinfo). destruct Hr2 as [-> | ->]; simpl; lia.
  - exists a1. split; [reflexivity|]. split.
    + destruct Hr1 as [-> | ->]; simpl; lia.
    + intros Hinfo. rewrite (Hann Hinfo). simpl. lia.
Qed.

(** ** The footer path and the tar-split annotations *)

Lemma locate_footer_path (E : Env) (src : Source) (blobSize : Z)
    (annotations : gmap string string) (log : Log) :
  annotation annotations (ManifestInfoKey E) = EmptyString ->
  locate E src blobSize annotations log = locate_footer E src blobSize log.
Proof. intros H. unfold locate. now rewrite H. Qed.

Lemma locate_footer_no_companion (E : Env) (src : Source) (blobSize : Z)
    (log log1 : Log) (loc : ManifestLocation) :
  locate_footer E src blobSize log = (LocOk loc, log1) ->
  loc_offsetTarSplit loc = 0.
Proof.
  unfold locate_footer.
  destruct (GetBlobAt src _ log) as [[[|[reader|e] chan]|e] lg]; try discriminate.
  - destruct (select_closed_takes_errs E); discriminate.
  - unfold parse_footer.
    destruct (io_ReadFull (stream_reader reader) _) as [footer [e|]]; [discriminate|].
    destruct (negb _); [discriminate|].
    now intros [= <- _].
Qed.

(** X14: without the metadata annotation the native reader uses the
    annotations only for the manifest checksum: two annotation maps that agree
    on it give the same run, whatever tar-split annotations they carry; no
    companion is located, and the companion bytes returned are nil or
    empty. *)
Theorem X14_footer_path_ignores_tarsplit (E : Env) (src : Source) (blobSize : Z)
    (annotations annotations' : gmap string string) (log : Log) :
  annotation annotations (ManifestInfoKey E) = EmptyString ->
  annotation annotations' (ManifestInfoKey E) = EmptyString ->
  annotation annotations' (ManifestChecksumKey E)
    = annotation annotations (ManifestChecksumKey E) ->
  readZstdChunkedManifest E src blobSize annotations' log
    = readZstdChunkedManifest E src blobSize annotations log /\
  (forall loc log1,
     locate E src blobSize annotations log = (LocOk loc, log1) ->
     loc_offsetTarSplit loc = 0) /\
  (forall m t o e,
     fst (readZstdChunkedManifest E src blobSize annotations log)
       = Returned (m, t, o, e) ->
     t = None \/ t = Some []).
Proof.
  intros Hinfo Hinfo' Hsum.
  assert (Hzero : forall loc log1,
            locate E src blobSize annotations log = (LocOk loc, log1) ->
            loc_offsetTarSplit loc = 0).
  { intros loc log1. rewrite locate_footer_path by exact Hinfo.
    apply locate_footer_no_companion. }
  split; [|split; [exact Hzero|]].
  - rewrite !readZstd_located, Hsum, !locate_footer_path by assumption. reflexivity.
  - intros m t o e. rewrite readZstd_located.
    destruct (blobSize <=? 56); [intros [= _ <- _ _]; auto|].
    destruct (String.eqb _ EmptyString); [intros [= _ <- _ _]; auto|].
    destruct (locate E src blobSize annotations log) as [[loc|r] log1] eqn:Hloc.
    + apply fetch_and_validate_no_companion. now apply (Hzero loc log1).
    + simpl. intros ->.
      destruct (locate_return E src blobSize annotations log _ _ Hloc)
        as [Hp | [e' [= _ <- _ _]]]; [discriminate | auto].
Qed.

Lemma X14_witness :
  readZstdChunkedManifest Mock.env Mock.src_footer 100
    (<[ TarSplitInfoKey Mock.env := "20:6:5"%string ]> Mock.ann_checksum) []
    = readZstdChunkedManifest Mock.env Mock.src_footer 100 Mock.ann_checksum [].
Proof.
  refine (proj1 (X14_footer_path_ignores_tarsplit Mock.env Mock.src_footer 100
                   Mock.ann_checksum
                   (<[ TarSplitInfoKey Mock.env := "20:6:5"%string ]> Mock.ann_checksum)
                   [] _ _ _)).
  - vm_compute. reflexivity.
  - vm_compute. reflexivity.
  - vm_compute. reflexivity.
Defined.

(** ** The gzip-family reader, end to end *)

Section EstargzRun.

Variable E : Env.

(** The run of the gzip-family reader from the request of line 94 on. *)
Lemma readEstargz_run (src : Source) (blobSize : Z)
    (annotations : gmap string string) (log : Log)
    (outs : list (res Reader)) (tocOffset : Z) :
  estargz_located E src blobSize log outs tocOffset ->
  exists log2,
    requests log2
      = requests log ++ [[mkChunk (uint64 (blobSize - 51)) (uint64 51)]] /\
    decompressions log2 = decompressions log /\
    readEstargzChunkedManifest E src blobSize annotations log =
      let log3 := log2 ++ [EvGetBlobAt [tocChunk blobSize tocOffset]] in
      match src (S (length (requests log))) [tocChunk blobSize tocOffset] with
      | SetupError e => ((None, 0, Some e), log3)
      | Delivers outs2 =>
          let looped := estargz_manifest_loop E
                          (tag_from (S (length (requests log))) 0 outs2)
                          None None log3 in
          (estargz_verdict E annotations (fst (fst looped)) tocOffset, snd looped)
      end.
Proof.
  intros (Hsize & Hsrc & Hparse & Hmax).
  destruct (estargz_footer_loop_log (tag_from (length (requests log)) 0 outs)
              (make_bytes 51) None
              (log ++ [EvGetBlobAt [mkChunk (uint64 (blobSize - 51)) (uint64 51)]]))
    as (a1 & Hlog & [[Hr1 _] Hd1]).
  destruct (estargz_footer_loop _ _ None _) as [[footer1 e1] log2] eqn:Hread.
  simpl in Hparse, Hlog.
  assert (Hreq : requests log2
                 = requests log ++ [[mkChunk (uint64 (blobSize - 51)) (uint64 51)]]).
  { subst log2. split_log. rewrite Hr1. now rewrite app_nil_r. }
  exists log2. split; [exact Hreq|]. split.
  { subst log2. split_log. rewrite Hd1. simpl. now rewrite !app_nil_r. }
  unfold readEstargzChunkedManifest. cbv zeta.
  destruct (Z.leb_spec blobSize 51); [lia|].
  unfold getBlobAt, GetBlobAt. rewrite Hsrc, Hread.
  change (16 + 22 - 6)%nat with 32%nat. rewrite Hparse.
  destruct (Z.gtb_spec (int64 (blobSize - 51 - tocOffset)) maxTocSize); [lia|].
  replace (length (requests log2)) with (S (length (requests log)))
    by (rewrite Hreq, length_app; simpl; lia).
  fold (tocChunk blobSize tocOffset).
  destruct (src (S (length (requests log))) _) as [e|outs2]; [reflexivity|].
  destruct (estargz_manifest_loop E _ None None _) as [[m2 e2] log4].
  simpl. unfold estargz_verdict.
  destruct m2 as [m|]; [|reflexivity].
  destruct (digest_Validate E _); [reflexivity|].
  destruct (negb _); reflexivity.
Qed.

(** Whatever happens, the gzip-family reader returns an error with a nil
    manifest and offset 0, or a manifest with the digest of the annotation. *)
Lemma readEstargz_result (src : Source) (blobSize : Z)
    (annotations : gmap string string) (log : Log) :
  let d := annotation annotations (TOCJSONDigestAnnotation E) in
  (exists e, fst (readEstargzChunkedManifest E src blobSize annotations log)
               = (None, 0, Some e)) \/
  (exists m off, fst (readEstargzChunkedManifest E src blobSize annotations log)
                   = (Some m, off, None) /\
                 digest_Validate E d = None /\ digest_Canonical E m = d).
Proof.
  intros d. unfold readEstargzChunkedManifest. cbv zeta.
  destruct (blobSize <=? 51); [left; eexists; reflexivity|].
  destruct (getBlobAt src _ log) as [[chan|e] log1]; [|left; eexists; reflexivity].
  destruct (estargz_footer_loop chan _ None log1) as [[footer1 e1] log2].
  destruct (strconv_ParseInt16 E _) as [tocOffset|e]; [|left; eexists; reflexivity].
  destruct (_ >? _); [left; eexists; reflexivity|].
  destruct (getBlobAt src _ log2) as [[chan2|e] log3]; [|left; eexists; reflexivity].
  destruct (estargz_manifest_loop E chan2 None None log3) as [[m2 e2] log4].
  destruct m2 as [m|]; [|left; eexists; reflexivity].
  fold d. destruct (digest_Validate E d) eqn:Hv; [left; eexists; reflexivity|].
  destruct (String.eqb (digest_Canonical E m) d) eqn:Hd; simpl;
    [|left; eexists; reflexivity].
  apply String_eqb_true in Hd. right. exists m, tocOffset. auto.
Qed.

End EstargzRun.

(** X15: the gzip-family reader returns either an error together with a nil
    manifest and offset 0, or a nil error together with a manifest whose
    canonical digest is the well-formed digest of the TOC digest annotation;
    a manifest that does not match that annotation is never returned. *)
Theorem X15_estargz_manifest_matches_annotation (E : Env) (src : Source)
    (blobSize : Z) (annotations : gmap string string) (log : Log) :
  let d := annotation annotations (TOCJSONDigestAnnotation E) in
  (exists e, fst (readEstargzChunkedManifest E src blobSize annotations log)
               = (None, 0, Some e)) \/
  (exists m off, fst (readEstargzChunkedManifest E src blobSize annotations log)
                   = (Some m, off, None) /\
                 digest_Validate E d = None /\ digest_Canonical E m = d).
Proof. apply readEstargz_result. Qed.

(** X16: an archive entry declared larger than 50 MiB does not end the
    gzip-family call with the manifest-too-big error. When the manifest
    request delivers the one stream that holds such an entry, the error found
    in the loop is never looked at and the call ends with
    manifest-not-found. *)
Theorem X16_estargz_oversized_entry_not_found (E : Env) (src : Source)
    (blobSize : Z) (annotations : gmap string string) (log : Log)
    (outs : list (res Reader)) (tocOffset : Z)
    (r gz aTar : Reader) (size : Z) :
  estargz_located E src blobSize log outs tocOffset ->
  src (S (length (requests log))) [tocChunk blobSize tocOffset] = Delivers [Ok r] ->
  pgzip_NewReader E r = Ok gz ->
  archivetar_Next E gz = Ok (size, aTar) ->
  size > maxTocSize ->
  fst (readEstargzChunkedManifest E src blobSize annotations log)
    = (None, 0, Some ErrManifestNotFound).
Proof.
  intros Hloc Hsrc Hgz Htar Hbig.
  destruct (readEstargz_run E src blobSize annotations log outs tocOffset Hloc)
    as (log2 & _ & _ & ->).
  cbv zeta. rewrite Hsrc. simpl tag_from.
  rewrite (estargz_entry_too_big E (mkStream (S (length (requests log)), 0%nat) r)
             [] None None _ gz aTar size Hgz Htar Hbig).
  reflexivity.
Qed.

Lemma X16_witness :
  fst (readEstargzChunkedManifest Mock.env Mock.src_huge_entry 100 ∅ [])
    = (None, 0, Some ErrManifestNotFound).
Proof.
  refine (X16_estargz_oversized_entry_not_found Mock.env Mock.src_huge_entry 100 ∅ []
            [Ok (mkReader (Mock.estargz_footer "0000000000000014") None)] 20
            Mock.huge_entry Mock.huge_entry (mkReader [] None) 52428801 _ _ _ _ _).
  - repeat split; try (vm_compute; congruence).
  - reflexivity.
  - reflexivity.
  - reflexivity.
  - reflexivity.
Defined.

(** X17: a read error on the archive entry is not reported by the gzip-family
    reader. When the entry delivers fewer bytes than its header declares, the
    buffer of the declared size, holding the bytes that arrived followed by
    zeros, is what the checksum comparison decides on. *)
Theorem X17_estargz_truncated_entry (E : Env) (src : Source)
    (blobSize : Z) (annotations : gmap string string) (log : Log)
    (outs : list (res Reader)) (tocOffset : Z)
    (r gz aTar : Reader) (size : Z) :
  estargz_located E src blobSize log outs tocOffset ->
  src (S (length (requests log))) [tocChunk blobSize tocOffset] = Delivers [Ok r] ->
  pgzip_NewReader E r = Ok gz ->
  archivetar_Next E gz = Ok (size, aTar) ->
  size <= maxTocSize ->
  (length (r_data aTar) < Z.to_nat size)%nat ->
  fst (readEstargzChunkedManifest E src blobSize annotations log)
    = estargz_verdict E annotations
        (Some (r_data aTar ++ drop (length (r_data aTar)) (make_bytes size)))
        tocOffset.
Proof.
  intros Hloc Hsrc Hgz Htar Hmax Hshort.
  destruct (readEstargz_run E src blobSize annotations log outs tocOffset Hloc)
    as (log2 & _ & _ & ->).
  cbv zeta. rewrite Hsrc. simpl tag_from. simpl estargz_manifest_loop.
  unfold estargz_read_entry. simpl stream_reader. rewrite Hgz, Htar.
  destruct (Z.gtb_spec size maxTocSize); [lia|].
  unfold io_ReadFull. rewrite length_make_bytes.
  destruct (Nat.leb_spec (Z.to_nat size) (length (r_data aTar))); [lia|].
  reflexivity.
Qed.

Lemma X17_witness :
  fst (readEstargzChunkedManifest Mock.env
         (Mock.first_then [Ok (mkReader (Mock.estargz_footer "0000000000000014") None)]
            [Ok (mkReader (Mock.le_bytes 8 3 ++ Mock.b "to") None)])
         100 Mock.ann_toc [])
    = (None, 0, Some ErrInvalidManifestChecksum).
Proof.
  refine (X17_estargz_truncated_entry Mock.env
            (Mock.first_then
               [Ok (mkReader (Mock.estargz_footer "0000000000000014") None)]
               [Ok (mkReader (Mock.le_bytes 8 3 ++ Mock.b "to") None)])
            100 Mock.ann_toc []
            [Ok (mkReader (Mock.estargz_footer "0000000000000014") None)] 20
            (mkReader (Mock.le_bytes 8 3 ++ Mock.b "to") None)
            (mkReader (Mock.le_bytes 8 3 ++ Mock.b "to") None)
            (mkReader (Mock.b "to") None) 3 _ _ _ _ _ _).
  - repeat split; try (vm_compute; congruence).
  - reflexivity.
  - reflexivity.
  - reflexivity.
  - vm_compute. congruence.
  - vm_compute. lia.
Defined.

Lemma estargz_footer_loop_errors (n : nat) (outs : list (res Reader)) :
  Forall (fun out => exists e, out = Err e) outs ->
  forall (i : nat) (footer : bytes) (err : option error) (log : Log),
  exists err',
    estargz_footer_loop (tag_from n i outs) footer err log = (footer, err', log).
Proof.
  induction 1 as [|out outs [e ->] _ IH]; intros i footer err log; simpl.
  - eauto.
  - apply IH.
Qed.

(** X18: a failed footer fetch is not reported as such by the gzip-family
    reader. When the footer request delivers only errors, or nothing, the
    reader goes on with the all-zero footer buffer; as [strconv.ParseInt]
    rejects it, the call fails with the parse-ToC-offset error, not with the
    error the source delivered, and makes no further request. *)
Theorem X18_estargz_footer_error_dropped (E : Env) (src : Source) (blobSize : Z)
    (annotations : gmap string string) (log : Log)
    (outs : list (res Reader)) (e : error) :
  51 < blobSize ->
  src (length (requests log)) [mkChunk (uint64 (blobSize - 51)) (uint64 51)]
    = Delivers outs ->
  Forall (fun out => exists e', out = Err e') outs ->
  strconv_ParseInt16 E (slice 16 32 (make_bytes 51)) = Err e ->
  readEstargzChunkedManifest E src blobSize annotations log
    = ((None, 0, Some (ErrParseTocOffset e)),
       log ++ [EvGetBlobAt [mkChunk (uint64 (blobSize - 51)) (uint64 51)]]).
Proof.
  intros Hsize Hsrc Herrs Hparse.
  unfold readEstargzChunkedManifest. cbv zeta.
  destruct (Z.leb_spec blobSize 51); [lia|].
  unfold getBlobAt, GetBlobAt. rewrite Hsrc.
  destruct (estargz_footer_loop_errors (length (requests log)) outs Herrs 0
              (make_bytes 51) None
              (log ++ [EvGetBlobAt [mkChunk (uint64 (blobSize - 51)) (uint64 51)]]))
    as (err' & ->).
  change (16 + 22 - 6)%nat with 32%nat. now rewrite Hparse.
Qed.

Lemma X18_witness :
  readEstargzChunkedManifest Mock.env
    (Mock.always [Err (ErrExternal "connection reset")]) 100 Mock.ann_toc []
    = ((None, 0, Some (ErrParseTocOffset (ErrExternal "invalid syntax"))),
       [] ++ [EvGetBlobAt [mkChunk (uint64 (100 - 51)) (uint64 51)]]).
Proof.
  refine (X18_estargz_footer_error_dropped Mock.env
            (Mock.always [Err (ErrExternal "connection reset")]) 100 Mock.ann_toc []
            [Err (ErrExternal "connection reset")] (ErrExternal "invalid syntax")
            _ _ _ _).
  - lia.
  - reflexivity.
  - repeat constructor. eexists. reflexivity.
  - vm_compute. reflexivity.
Defined.

Lemma slice_take (lo hi n : nat) (data : bytes) :
  (hi <= n)%nat -> slice lo hi (take n data) = slice lo hi data.
Proof.
  intros H. unfold slice.
  destruct (Nat.le_gt_cases lo hi) as [Hle|Hgt].
  - replace n with (lo + (n - lo))%nat at 1 by lia.
    rewrite <- take_drop_commute, take_take. f_equal. lia.
  - replace (hi - lo)%nat with 0%nat by lia. reflexivity.
Qed.

(** X19: of the 51 footer bytes the gzip-family reader uses bytes [16:32)
    only. Two blobs whose footers agree on these 16 bytes and that answer the
    second request alike give the same result: the gzip header and the
    [STARGZ] marker of the footer are not checked. *)
Theorem X19_estargz_reads_only_the_offset_digits (E : Env) (src src' : Source)
    (blobSize : Z) (annotations : gmap string string) (log : Log)
    (r r' : Reader) :
  src (length (requests log)) [mkChunk (uint64 (blobSize - 51)) (uint64 51)]
    = Delivers [Ok r] ->
  src' (length (requests log)) [mkChunk (uint64 (blobSize - 51)) (uint64 51)]
    = Delivers [Ok r'] ->
  (51 <= length (r_data r))%nat ->
  (51 <= length (r_data r'))%nat ->
  slice 16 32 (r_data r) = slice 16 32 (r_data r') ->
  (forall chunks, src' (S (length (requests log))) chunks
                  = src (S (length (requests log))) chunks) ->
  readEstargzChunkedManifest E src' blobSize annotations log
    = readEstargzChunkedManifest E src blobSize annotations log.
Proof.
  intros Hsrc Hsrc' Hlen Hlen' Hdigits Hsame.
  unfold readEstargzChunkedManifest. cbv zeta.
  destruct (blobSize <=? 51); [reflexivity|].
  unfold getBlobAt, GetBlobAt. rewrite Hsrc, Hsrc'.
  simpl tag_from. simpl estargz_footer_loop. simpl stream_reader.
  rewrite !io_ReadFull_enough by (rewrite length_make_bytes; simpl; lia).
  rewrite length_make_bytes. change (Z.to_nat 51) with 51%nat.
  change (16 + 22 - 6)%nat with 32%nat.
  rewrite !slice_take by lia. rewrite Hdigits.
  destruct (strconv_ParseInt16 E _) as [tocOffset|e]; [|reflexivity].
  destruct (_ >? _); [reflexivity|].
  match goal with |- context [length (requests ((?a ++ ?c) ++ ?d))] =>
    replace (length (requests ((a ++ c) ++ d))) with (S (length (requests log)))
      by (rewrite !requests_app, !length_app; simpl; lia)
  end.
  rewrite Hsame. reflexivity.
Qed.

Lemma X19_witness :
  readEstargzChunkedManifest Mock.env Mock.src_estargz_scrambled 100 Mock.ann_toc []
    = readEstargzChunkedManifest Mock.env Mock.src_estargz 100 Mock.ann_toc [].
Proof.
  refine (X19_estargz_reads_only_the_offset_digits Mock.env Mock.src_estargz
            Mock.src_estargz_scrambled 100 Mock.ann_toc []
            (mkReader (Mock.estargz_footer "0000000000000014") None)
            (mkReader (repeat xff 16 ++ Mock.b "0000000000000014" ++ repeat xff 19) None)
            _ _ _ _ _ _).
  - reflexivity.
  - reflexivity.
  - vm_compute. lia.
  - vm_compute. lia.
  - reflexivity.
  - reflexivity.
Defined.

(** X20: the gzip-family reader closes every stream it receives, on every
    path, and so does the native reader when the metadata annotation is
    present: in the events a call adds to the log, the streams received are
    the streams closed, in the same order. *)
Theorem X20_streams_received_are_closed (E : Env) (src : Source) (blobSize : Z)
    (annotations : gmap string string) (log : Log) :
  (exists added,
     snd (readEstargzChunkedManifest E src blobSize annotations log) = log ++ added /\
     received added = closed added) /\
  (annotation annotations (ManifestInfoKey E) <> EmptyString ->
   exists added,
     snd (readZstdChunkedManifest E src blobSize annotations log) = log ++ added /\
     received added = closed added).
Proof.
  split.
  - apply readEstargz_closes_every_stream.
  - apply readZstd_annotated_closes_every_stream.
Qed.

Lemma X20_witness :
  exists added,
    snd (readZstdChunkedManifest Mock.env Mock.src_companion 100 Mock.ann_companion [])
      = [] ++ added /\
    received added = closed added.
Proof.
  apply (proj2 (X20_streams_received_are_closed Mock.env Mock.src_companion 100
                  Mock.ann_companion [])).
  vm_compute. discriminate.
Defined.

(** X21: the gzip-family reader succeeds on a well-formed blob. When the
    footer gives a ToC offset within the ceiling, the manifest request
    delivers one stream that gzip and tar accept, the first archive entry is
    within the ceiling and delivered in full, and its canonical digest is the
    TOC digest annotation, the call returns exactly the declared number of
    entry bytes and the ToC offset, after two requests: the footer and the
    range from the ToC offset to the footer. *)
Theorem X21_estargz_valid_blob_succeeds (E : Env) (src : Source)
    (blobSize : Z) (annotations : gmap string string) (log : Log)
    (outs : list (res Reader)) (tocOffset : Z)
    (r gz aTar : Reader) (size : Z) :
  estargz_located E src blobSize log outs tocOffset ->
  src (S (length (requests log))) [tocChunk blobSize tocOffset] = Delivers [Ok r] ->
  pgzip_NewReader E r = Ok gz ->
  archivetar_Next E gz = Ok (size, aTar) ->
  size <= maxTocSize ->
  (Z.to_nat size <= length (r_data aTar))%nat ->
  let m := take (Z.to_nat size) (r_data aTar) in
  let d := annotation annotations (TOCJSONDigestAnnotation E) in
  digest_Validate E d = None ->
  digest_Canonical E m = d ->
  fst (readEstargzChunkedManifest E src blobSize annotations log)
    = (Some m, tocOffset, None) /\
  requests (snd (readEstargzChunkedManifest E src blobSize annotations log))
    = requests log ++ [[mkChunk (uint64 (blobSize - 51)) (uint64 51)];
                       [tocChunk blobSize tocOffset]].
Proof.
  intros Hloc Hsrc Hgz Htar Hmax Hfull m d Hv Hd.
  destruct (readEstargz_run E src blobSize annotations log outs tocOffset Hloc)
    as (log2 & Hreq & _ & ->).
  cbv zeta. rewrite Hsrc. simpl tag_from. simpl estargz_manifest_loop.
  unfold estargz_read_entry. simpl stream_reader. rewrite Hgz, Htar.
  destruct (Z.gtb_spec size maxTocSize); [lia|].
  rewrite io_ReadFull_enough by now rewrite length_make_bytes.
  rewrite length_make_bytes. fold m. simpl fst. simpl snd.
  unfold estargz_verdict. fold d. rewrite Hv, Hd, String.eqb_refl. simpl negb.
  split; [reflexivity|].
  rewrite !requests_app, Hreq, <- app_assoc.
  change (requests [EvGetBlobAt [tocChunk blobSize tocOffset]])
    with [[tocChunk blobSize tocOffset]].
  change (requests [EvRecv ?a; EvDecompress ?c; EvClose ?a])
    with (@nil (list ImageSourceChunk)).
  rewrite ?app_nil_r, <- ?app_assoc. reflexivity.
Qed.

Lemma X21_witness :
  fst (readEstargzChunkedManifest Mock.env Mock.src_estargz 100 Mock.ann_toc [])
    = (Some (Mock.b "toc"), 20, None) /\
  requests (snd (readEstargzChunkedManifest Mock.env Mock.src_estargz 100
                   Mock.ann_toc []))
    = requests [] ++ [[mkChunk (uint64 (100 - 51)) (uint64 51)]; [tocChunk 100 20]].
Proof.
  refine (X21_estargz_valid_blob_succeeds Mock.env Mock.src_estargz 100 Mock.ann_toc []
            [Ok (mkReader (Mock.estargz_footer "0000000000000014") None)] 20
            Mock.toc_entry Mock.toc_entry (mkReader (Mock.b "toc") None) 3
            _ _ _ _ _ _ _ _).
  - repeat split; try (vm_compute; congruence).
  - reflexivity.
  - reflexivity.
  - reflexivity.
  - vm_compute. congruence.
  - vm_compute. lia.
  - reflexivity.
  - reflexivity.
Defined.

(** X22: with the metadata annotation present, the native reader uses the
    blob size for the blob-too-small test only: for any two sizes above the
    56-byte footer the call runs alike, so the annotated offset and lengths
    are never compared with the size of the blob. *)
Theorem X22_annotated_range_not_checked_against_size (E : Env) (src : Source)
    (blobSize blobSize' : Z) (annotations : gmap string string) (log : Log) :
  annotation annotations (ManifestInfoKey E) <> EmptyString ->
  56 < blobSize ->
  56 < blobSize' ->
  readZstdChunkedManifest E src blobSize' annotations log
    = readZstdChunkedManifest E src blobSize annotations log.
Proof.
  intros Hinfo Hsize Hsize'.
  rewrite !readZstd_annotated by exact Hinfo.
  destruct (Z.leb_spec blobSize 56); [lia|].
  destruct (Z.leb_spec blobSize' 56); [lia|].
  reflexivity.
Qed.

Lemma X22_witness :
  readZstdChunkedManifest Mock.env (Mock.always [Mock.manifest_stream]) 57
    Mock.ann_position []
    = readZstdChunkedManifest Mock.env (Mock.always [Mock.manifest_stream]) 100
        Mock.ann_position [].
Proof.
  refine (X22_annotated_range_not_checked_against_size Mock.env
            (Mock.always [Mock.manifest_stream]) 100 57 Mock.ann_position [] _ _ _).
  - vm_compute. discriminate.
  - lia.
  - lia.
Defined.

(** * The metadata annotation and the companion stream *)

Section Reached.

Variable E : Env.











End Reached.






